(** * Assignment Tracker API: the route handlers over a document store

    A shallow embedding of the three Express routers of the repository
    (routes/subjects, routes/exams, routes/assignments) and of the part of
    the Mongoose API they call.  A handler is a function from the request,
    the environment (the clock and the ObjectId generator) and the
    database to a response and the next database. *)

From stdpp Require Import gmap strings list sorting.
From Stdlib Require Import ZArith.

Local Open Scope Z_scope.

(** ** Documents *)

(** A MongoDB ObjectId.  [toString] is injective on ObjectIds, so the
    handlers' comparison of two hex renderings is the comparison of the
    ids themselves. *)
Definition ObjectId := N.
Bind Scope N_scope with ObjectId.

(** Field values as Mongoose hands them to the handlers, that is after the
    schema's cast: references are ObjectIds and dates are Dates
    (milliseconds since the epoch). *)
Inductive value :=
  | VNull
  | VBool (b : bool)
  | VNum (n : Z)
  | VStr (s : string)
  | VOid (o : ObjectId)
  | VDate (t : Z).

#[global] Instance value_eq_dec : EqDecision value.
Proof. solve_decision. Defined.

(** A JS object or a stored document: field name to value. *)
Abbreviation doc := (gmap string value).

(** A collection, indexed by [_id]. *)
Abbreviation collection := (gmap ObjectId doc).

(** ** The order of values used by [sort] and [$lt]

    MongoDB compares values of different types by type first (null and
    missing, then numbers, strings, ObjectIds, booleans, dates) and values
    of one type among themselves. *)
Definition rank (o : option value) : Z :=
  match o with
  | None | Some VNull => 1
  | Some (VNum _) => 2
  | Some (VStr _) => 3
  | Some (VOid _) => 4
  | Some (VBool _) => 5
  | Some (VDate _) => 6
  end.

Definition same_type_leb (a b : option value) : bool :=
  match a, b with
  | Some (VNum x), Some (VNum y) => bool_decide (x ≤ y)
  | Some (VStr x), Some (VStr y) => String.leb x y
  | Some (VOid x), Some (VOid y) => bool_decide (x ≤ y)%N
  | Some (VBool x), Some (VBool y) => implb x y
  | Some (VDate x), Some (VDate y) => bool_decide (x ≤ y)
  | _, _ => true
  end.

Definition bson_leb (a b : option value) : bool :=
  bool_decide (rank a < rank b) || (bool_decide (rank a = rank b) && same_type_leb a b).

(** ** Queries *)

(** The conditions the routers put on a path: a plain value (equality),
    [{$lt: v}] and [{$ne: v}]. *)
Inductive cond :=
  | Eq (v : value)
  | Lt (v : value)
  | Ne (v : value).

Definition eq_holds (v : value) (o : option value) : bool :=
  match o with
  | Some w => bool_decide (w = v)
  | None => bool_decide (v = VNull)
  end.

(** [$lt] only matches values of the same type as its operand. *)
Definition holds (c : cond) (o : option value) : bool :=
  match c with
  | Eq v => eq_holds v o
  | Lt v => bool_decide (rank o = rank (Some v)) && negb (bson_leb (Some v) o)
  | Ne v => negb (eq_holds v o)
  end.

Definition query := list (string * cond).

Definition matches (q : query) (d : doc) : bool :=
  forallb (λ pc, holds pc.2 (d !! pc.1)) q.

(** Sort directions: [1] and [-1]. *)
Inductive direction := Asc | Desc.

Definition before (path : string) (dir : direction) : relation doc :=
  λ d1 d2,
    match dir with
    | Asc => bson_leb (d1 !! path) (d2 !! path) = true
    | Desc => bson_leb (d2 !! path) (d1 !! path) = true
    end.

#[global] Instance before_dec path dir : RelDecision (before path dir).
Proof. intros d1 d2; destruct dir; simpl; apply _. Defined.

(** ** The Mongoose API used by the routers *)

(** What a store call can throw; every handler catches it and answers 500
    with [error.message]. *)
Inductive thrown :=
  | ValidationError
  | CastError
  | TypeError
  | MongoServerError.

(** A route parameter [:id] either casts to an ObjectId or does not. *)
Inductive param :=
  | WellFormed (i : ObjectId)
  | Malformed (s : string).

(** An imported model.  The schemas (models/Subject, models/Assignment,
    models/Exam) are not among the sources, so they are parameters:
    [validator] is the validation run when a document is saved,
    [updateValidator] the one run on the paths of an update when
    [runValidators] is set, [defaults] the default values of the schema
    at a given time. *)
Record Model := {
  validator : doc → bool;
  updateValidator : doc → bool;
  defaults : Z → doc
}.

(** The environment of a request: the ObjectId the driver generates for a
    new document and the value of [new Date()]. *)
Record env := {
  newId : ObjectId;
  now : Z
}.

Definition find (coll : collection) (q : query) : list doc :=
  filter (λ d, matches q d = true) (map_to_list coll).*2.

Definition sort (path : string) (dir : direction) (l : list doc) : list doc :=
  merge_sort (before path dir) l.

Definition findById (coll : collection) (p : param) : thrown + option doc :=
  match p with
  | Malformed _ => inl CastError
  | WellFormed i => inr (coll !! i)
  end.

(** [Model.create(body)]: the document is the body over the defaults, with
    the body's own [_id] or else a generated one; it is validated and
    inserted, and a duplicate [_id] is refused by the server. *)
Definition new_id (e : env) (body : doc) : ObjectId :=
  match body !! "_id" with
  | Some (VOid x) => x
  | _ => newId e
  end.

Definition new_doc (M : Model) (e : env) (body : doc) : doc :=
  <["_id" := VOid (new_id e body)]> (body ∪ defaults M (now e)).

Definition create (M : Model) (e : env) (coll : collection) (body : doc)
  : thrown + (doc * collection) :=
  match body !! "_id" with
  | Some (VOid _) | None =>
      let d := new_doc M e body in
      if negb (validator M d) then inl ValidationError
      else if decide (is_Some (coll !! new_id e body)) then inl MongoServerError
      else inr (d, <[new_id e body := d]> coll)
  | Some _ => inl CastError
  end.

(** [Model.findByIdAndUpdate(id, body, {new: true, runValidators: true})]:
    the update is validated before it is sent; the server sets every field
    of the body on the matching document, refuses a change of [_id], and
    the call returns the updated document, or [null] when none matches. *)
Definition findByIdAndUpdate (M : Model) (coll : collection) (p : param) (body : doc)
  : thrown + (option doc * collection) :=
  match p with
  | Malformed _ => inl CastError
  | WellFormed i =>
      if negb (updateValidator M body) then inl ValidationError
      else match coll !! i with
           | None => inr (None, coll)
           | Some old =>
               if decide (body !! "_id" = None ∨ body !! "_id" = Some (VOid i))
               then let d := body ∪ old in inr (Some d, <[i := d]> coll)
               else inl MongoServerError
           end
  end.

Definition findByIdAndDelete (coll : collection) (p : param)
  : thrown + (option doc * collection) :=
  match p with
  | Malformed _ => inl CastError
  | WellFormed i => inr (coll !! i, delete i coll)
  end.

(** ** Populated documents *)

(** A path of a document read with [populate]: a plain value, or the
    selected fields of the referenced document ([null] when the reference
    does not resolve). *)
Inductive pvalue :=
  | Plain (v : value)
  | Populated (r : option doc).

Abbreviation pdoc := (gmap string pvalue).

Definition lean (d : doc) : pdoc := Plain <$> d.

Definition select (fields : list string) (i : ObjectId) (d : doc) : doc :=
  <["_id" := VOid i]> (filter (λ kv, kv.1 ∈ fields) d).

Definition populate (refs : collection) (path : string) (fields : list string)
    (d : pdoc) : pdoc :=
  match d !! path with
  | Some (Plain (VOid r)) => <[path := Populated (select fields r <$> refs !! r)]> d
  | _ => d
  end.

(** ** Requests, responses, database *)

(** [req.user], attached by the [protect] middleware. *)
Record User := {
  _id : ObjectId;
  role : string
}.

Record request := {
  user : User;
  params_id : param;
  body : doc
}.

Inductive json :=
  | JData (d : pdoc)
  | JNull
  | JList (count : nat) (data : list pdoc)
  | JEmpty
  | JMessage (m : string)
  | JError (e : thrown)
  | JRoleDenied (r : string).

Record response := {
  status : nat;
  success : bool;
  content : json
}.

Record db := {
  users : collection;
  subjects : collection;
  assignments : collection;
  exams : collection
}.

Definition handler := request → env → db → response * db.

Definition ok (d : json) : response := {| status := 200; success := true; content := d |}.
Definition created (d : json) : response := {| status := 201; success := true; content := d |}.
Definition failed (code : nat) (m : json) : response :=
  {| status := code; success := false; content := m |}.

(** Modelled from the spec: the [authorize] middleware (middleware/auth is
    not among the sources).  A requester whose role is not one of the
    listed roles is refused with Forbidden (403) before the handler runs. *)
Definition authorize (roles : list string) (h : handler) : handler :=
  λ req e s,
    if decide (role (user req) ∈ roles) then h req e s
    else (failed 403 (JRoleDenied (role (user req))), s).

Definition set_subjects (c : collection) (s : db) : db :=
  {| users := users s; subjects := c; assignments := assignments s; exams := exams s |}.
Definition set_assignments (c : collection) (s : db) : db :=
  {| users := users s; subjects := subjects s; assignments := c; exams := exams s |}.
Definition set_exams (c : collection) (s : db) : db :=
  {| users := users s; subjects := subjects s; assignments := assignments s; exams := c |}.

(** [doc._id] of a document returned by the store. *)
Definition id_of (d : doc) : option ObjectId :=
  match d !! "_id" with
  | Some (VOid i) => Some i
  | _ => None
  end.

(** [data: x] where [x] may be [null]. *)
Definition data_of (o : option pdoc) : json :=
  match o with
  | Some d => JData d
  | None => JNull
  end.

(** ** routes/subjects *)

Module subjects.
Section routes.
Variable Subject : Model.

(** GET /api/subjects *)
Definition route_get : handler := λ req e s,
  let found := sort "createdAt" Desc (find (subjects s) []) in
  (ok (JList (length found) (lean <$> found)), s).

(** GET /api/subjects/:id *)
Definition route_get_id : handler := λ req e s,
  match findById (subjects s) (params_id req) with
  | inl error => (failed 500 (JError error), s)
  | inr None => (failed 404 (JMessage "Subject not found"), s)
  | inr (Some subject) => (ok (JData (lean subject)), s)
  end.

(** POST /api/subjects *)
Definition route_post : handler := authorize ["admin"] (λ req e s,
  match create Subject e (subjects s) (body req) with
  | inl error => (failed 500 (JError error), s)
  | inr (subject, coll) => (created (JData (lean subject)), set_subjects coll s)
  end).

(** PUT /api/subjects/:id *)
Definition route_put : handler := authorize ["admin"] (λ req e s,
  match findByIdAndUpdate Subject (subjects s) (params_id req) (body req) with
  | inl error => (failed 500 (JError error), s)
  | inr (None, _) => (failed 404 (JMessage "Subject not found"), s)
  | inr (Some subject, coll) => (ok (JData (lean subject)), set_subjects coll s)
  end).

(** DELETE /api/subjects/:id *)
Definition route_delete : handler := authorize ["admin"] (λ req e s,
  match findByIdAndDelete (subjects s) (params_id req) with
  | inl error => (failed 500 (JError error), s)
  | inr (None, _) => (failed 404 (JMessage "Subject not found"), s)
  | inr (Some _, coll) => (ok JEmpty, set_subjects coll s)
  end).
End routes.
End subjects.

(** ** routes/exams *)

Module exams.
Section routes.
Variable Exam : Model.

(** [.populate('subject', 'name code color')] *)
Definition expand (s : db) (d : doc) : pdoc :=
  populate (subjects s) "subject" ["name"; "code"; "color"] (lean d).

(** GET /api/exams *)
Definition route_get : handler := λ req e s,
  let found := expand s <$> sort "date" Asc (find (exams s) []) in
  (ok (JList (length found) found), s).

(** GET /api/exams/:id *)
Definition route_get_id : handler := λ req e s,
  match findById (exams s) (params_id req) with
  | inl error => (failed 500 (JError error), s)
  | inr None => (failed 404 (JMessage "Exam not found"), s)
  | inr (Some exam) => (ok (JData (expand s exam)), s)
  end.

(** POST /api/exams *)
Definition route_post : handler := authorize ["admin"] (λ req e s,
  match create Exam e (exams s) (body req) with
  | inl error => (failed 500 (JError error), s)
  | inr (exam, coll) =>
      let s' := set_exams coll s in
      match id_of exam with
      | Some i =>
          match findById coll (WellFormed i) with
          | inl error => (failed 500 (JError error), s')
          | inr populatedExam => (created (data_of (expand s' <$> populatedExam)), s')
          end
      | None => (created JNull, s')
      end
  end).

(** PUT /api/exams/:id *)
Definition route_put : handler := authorize ["admin"] (λ req e s,
  match findByIdAndUpdate Exam (exams s) (params_id req) (body req) with
  | inl error => (failed 500 (JError error), s)
  | inr (None, _) => (failed 404 (JMessage "Exam not found"), s)
  | inr (Some exam, coll) =>
      let s' := set_exams coll s in (ok (JData (expand s' exam)), s')
  end).

(** DELETE /api/exams/:id *)
Definition route_delete : handler := authorize ["admin"] (λ req e s,
  match findByIdAndDelete (exams s) (params_id req) with
  | inl error => (failed 500 (JError error), s)
  | inr (None, _) => (failed 404 (JMessage "Exam not found"), s)
  | inr (Some _, coll) => (ok JEmpty, set_exams coll s)
  end).
End routes.
End exams.

(** ** routes/assignments *)

Module assignments.
Section routes.
Variable Assignment : Model.

(** [.populate('subject', 'name code color').populate('createdBy', 'name email')] *)
Definition expand (s : db) (d : doc) : pdoc :=
  populate (users s) "createdBy" ["name"; "email"]
    (populate (subjects s) "subject" ["name"; "code"; "color"] (lean d)).

(** The overdue condition: [dueDate: {$lt: new Date()}, status: {$ne: 'completed'}]. *)
Definition overdue (e : env) : query :=
  [("dueDate", Lt (VDate (now e))); ("status", Ne (VStr "completed"))].

(** [assignment.createdBy._id.toString() !== req.user._id.toString()] on a
    populated document.  [createdBy] is an ObjectId path: once populated
    it is the referenced user's summary or [null], and when the document
    has no owner it stays null or undefined; reading [_id] off either
    throws. *)
Definition populated_owner_differs (assignment : pdoc) (u : User) : thrown + bool :=
  match assignment !! "createdBy" with
  | Some (Populated (Some owner)) =>
      match owner !! "_id" with
      | Some (VOid o) => inr (bool_decide (o ≠ _id u))
      | _ => inl TypeError
      end
  | _ => inl TypeError
  end.

(** [assignment.createdBy.toString() !== req.user._id.toString()] on a
    stored document: an ObjectId, or null/undefined on which [toString]
    throws. *)
Definition stored_owner_differs (assignment : doc) (u : User) : thrown + bool :=
  match assignment !! "createdBy" with
  | Some (VOid o) => inr (bool_decide (o ≠ _id u))
  | _ => inl TypeError
  end.

(** [req.user.role === 'student' && c]: [c] is only evaluated for a student. *)
Definition student_and (u : User) (c : thrown + bool) : thrown + bool :=
  if decide (role u = "student") then c else inr false.

(** GET /api/assignments *)
Definition route_get : handler := λ req e s,
  let query :=
    if decide (role (user req) = "student")
    then find (assignments s) [("createdBy", Eq (VOid (_id (user req))))]
    else find (assignments s) [] in
  let found := expand s <$> sort "dueDate" Asc query in
  (ok (JList (length found) found), s).

(** GET /api/assignments/overdue *)
Definition route_get_overdue : handler := λ req e s,
  let query :=
    if decide (role (user req) = "student")
    then find (assignments s) (("createdBy", Eq (VOid (_id (user req)))) :: overdue e)
    else find (assignments s) (overdue e) in
  let found := expand s <$> sort "dueDate" Asc query in
  (ok (JList (length found) found), s).

(** GET /api/assignments/:id *)
Definition route_get_id : handler := λ req e s,
  match findById (assignments s) (params_id req) with
  | inl error => (failed 500 (JError error), s)
  | inr None => (failed 404 (JMessage "Assignment not found"), s)
  | inr (Some found) =>
      let assignment := expand s found in
      match student_and (user req) (populated_owner_differs assignment (user req)) with
      | inl error => (failed 500 (JError error), s)
      | inr true => (failed 403 (JMessage "Not authorized to view this assignment"), s)
      | inr false => (ok (JData assignment), s)
      end
  end.

(** POST /api/assignments *)
Definition route_post : handler := λ req e s,
  let body := <["createdBy" := VOid (_id (user req))]> (body req) in
  match create Assignment e (assignments s) body with
  | inl error => (failed 500 (JError error), s)
  | inr (assignment, coll) =>
      let s' := set_assignments coll s in
      match id_of assignment with
      | Some i =>
          match findById coll (WellFormed i) with
          | inl error => (failed 500 (JError error), s')
          | inr populatedAssignment =>
              (created (data_of (expand s' <$> populatedAssignment)), s')
          end
      | None => (created JNull, s')
      end
  end.

(** PUT /api/assignments/:id *)
Definition route_put : handler := λ req e s,
  match findById (assignments s) (params_id req) with
  | inl error => (failed 500 (JError error), s)
  | inr None => (failed 404 (JMessage "Assignment not found"), s)
  | inr (Some assignment) =>
      match student_and (user req) (stored_owner_differs assignment (user req)) with
      | inl error => (failed 500 (JError error), s)
      | inr true => (failed 403 (JMessage "Not authorized to update this assignment"), s)
      | inr false =>
          match findByIdAndUpdate Assignment (assignments s) (params_id req) (body req) with
          | inl error => (failed 500 (JError error), s)
          | inr (updated, coll) =>
              let s' := set_assignments coll s in
              (ok (data_of (expand s' <$> updated)), s')
          end
      end
  end.

(** DELETE /api/assignments/:id *)
Definition route_delete : handler := authorize ["admin"] (λ req e s,
  match findByIdAndDelete (assignments s) (params_id req) with
  | inl error => (failed 500 (JError error), s)
  | inr (None, _) => (failed 404 (JMessage "Assignment not found"), s)
  | inr (Some _, coll) => (ok JEmpty, set_assignments coll s)
  end).
End routes.
End assignments.

(** ** Schemas *)

(** Modelled from the spec: the Subject schema (models/Subject is not among
    the sources).  A Subject has a name, a code, a display colour and a
    creation timestamp; what a valid Subject is stays a parameter. *)
Definition SubjectModel (valid validUpdate : doc → bool) : Model :=
  {| validator := valid;
     updateValidator := validUpdate;
     defaults := λ t, {[ "createdAt" := VDate t ]} |}.

Definition is_str (o : option value) : bool :=
  match o with Some (VStr _) => true | _ => false end.
Definition is_oid (o : option value) : bool :=
  match o with Some (VOid _) => true | _ => false end.
Definition is_date (o : option value) : bool :=
  match o with Some (VDate _) => true | _ => false end.
Definition absent_or (f : option value → bool) (o : option value) : bool :=
  match o with None => true | _ => f o end.

Definition is_status (o : option value) : bool :=
  bool_decide (o = Some (VStr "pending")) || bool_decide (o = Some (VStr "completed")).

(** Modelled from the spec: the Assignment schema (models/Assignment is not
    among the sources).  Required fields: a title, a Subject reference, the
    owner reference and a due date; the status, when given, is one of the
    enumeration; a creation timestamp is stamped.  An update is checked on
    the paths it sets. *)
Definition AssignmentSchema : Model :=
  {| validator := λ d,
       is_str (d !! "title") && is_oid (d !! "subject") && is_oid (d !! "createdBy")
       && is_date (d !! "dueDate") && absent_or is_status (d !! "status");
     updateValidator := λ u,
       absent_or is_str (u !! "title") && absent_or is_oid (u !! "subject")
       && absent_or is_oid (u !! "createdBy") && absent_or is_date (u !! "dueDate")
       && absent_or is_status (u !! "status");
     defaults := λ t, {[ "createdAt" := VDate t ]} |}.

(** Modelled from the spec: a Subject is valid with a name and a code, and
    a colour that is a string when given. *)
Definition SubjectSchema : Model :=
  SubjectModel
    (λ d, is_str (d !! "name") && is_str (d !! "code") && absent_or is_str (d !! "color"))
    (λ u, absent_or is_str (u !! "name") && absent_or is_str (u !! "code")
          && absent_or is_str (u !! "color")).

(** Modelled from the spec: an Exam has a Subject reference and a date. *)
Definition ExamSchema : Model :=
  {| validator := λ d, is_oid (d !! "subject") && is_date (d !! "date");
     updateValidator := λ u, absent_or is_oid (u !! "subject") && absent_or is_date (u !! "date");
     defaults := λ _, ∅ |}.

(** ** A sequence of update requests *)

Fixpoint serve (h : handler) (calls : list (request * env)) (s : db) : db :=
  match calls with
  | [] => s
  | (req, e) :: rest => serve h rest (h req e s).2
  end.

(** The store accepts a body: its [_id], if any, is an ObjectId, the
    document built from it is valid and its id is free. *)
Definition creatable (M : Model) (e : env) (coll : collection) (body : doc) : Prop :=
  (body !! "_id" = None ∨ ∃ x, body !! "_id" = Some (VOid x))
  ∧ validator M (new_doc M e body) = true
  ∧ coll !! new_id e body = None.


(** ** A sample database

    Two students, an administrator and a requester with another role; one
    Subject; Alice's homework, due at time 100. *)
Definition alice : User := {| _id := 1; role := "student" |}.
Definition bob : User := {| _id := 2; role := "student" |}.
Definition root : User := {| _id := 3; role := "admin" |}.
Definition tutor : User := {| _id := 4; role := "teacher" |}.

Definition account (u : User) (name : string) : doc :=
  {[ "_id" := VOid (_id u); "name" := VStr name; "role" := VStr (role u) ]}.

Definition math : doc :=
  {[ "_id" := VOid 20; "name" := VStr "Math"; "code" := VStr "MATH101";
     "color" := VStr "#ff0000"; "createdAt" := VDate 10 ]}.

Definition hw1 : doc :=
  {[ "_id" := VOid 10; "title" := VStr "HW1"; "subject" := VOid 20;
     "createdBy" := VOid 1; "dueDate" := VDate 100; "createdAt" := VDate 50 ]}.

Definition sample : db :=
  {| users := {[ 1%N := account alice "Alice"; 2%N := account bob "Bob";
                 3%N := account root "Root"; 4%N := account tutor "Tutor" ]};
     subjects := {[ 20%N := math ]};
     assignments := {[ 10%N := hw1 ]};
     exams := ∅ |}.

Definition at_200 : env := {| newId := 11; now := 200 |}.

Definition request_of (u : User) (p : param) (b : doc) : request :=
  {| user := u; params_id := p; body := b |}.

(** Alice creates a second homework and names Bob as its owner. *)
Definition hw2_body : doc :=
  {[ "title" := VStr "HW2"; "subject" := VOid 20; "dueDate" := VDate 300;
     "createdBy" := VOid 2 ]}.

(** Alice updates her homework, handing it to Bob. *)
Definition give_away : request :=
  request_of alice (WellFormed 10) {[ "createdBy" := VOid 2 ]}.

(** The store accepts an update of the document [i]: the body passes the
    update validators and does not change [_id]. *)
Definition update_accepted (M : Model) (i : ObjectId) (body : doc) : Prop :=
  updateValidator M body = true
  ∧ (body !! "_id" = None ∨ body !! "_id" = Some (VOid i)).

(** Bob asks for Alice's homework; the administrator and the tutor mark it
    completed. *)
Definition bob_reads : request := request_of bob (WellFormed 10) ∅.
Definition root_completes : request :=
  request_of root (WellFormed 10) {[ "status" := VStr "completed" ]}.
Definition tutor_completes : request :=
  request_of tutor (WellFormed 10) {[ "status" := VStr "completed" ]}.

(** Alice tries to delete her own homework. *)
Definition alice_deletes : request := request_of alice (WellFormed 10) ∅.

(** The administrator deletes a record that is not there. *)
Definition root_deletes_missing : request := request_of root (WellFormed 77) ∅.

(** ** What the list claims speak of *)

(** Every document of a collection, once per id. *)
Definition all_docs (coll : collection) : list doc := (map_to_list coll).*2.

Definition owned_by (u : User) (d : doc) : Prop :=
  d !! "createdBy" = Some (VOid (_id u)).

(** Due strictly before [t] and not completed. *)
Definition is_overdue (t : Z) (d : doc) : Prop :=
  match d !! "dueDate" with
  | Some (VDate due) => due < t
  | _ => False
  end
  ∧ d !! "status" ≠ Some (VStr "completed").

#[global] Instance owned_by_dec u d : Decision (owned_by u d).
Proof. unfold owned_by. apply _. Defined.

#[global] Instance is_overdue_dec t d : Decision (is_overdue t d).
Proof. unfold is_overdue. destruct (d !! "dueDate") as [[]|]; apply _. Defined.

(** Bob's homework: one completed and past, one past and pending, one due
    later; next to Alice's. *)
Definition hw3 : doc :=
  {[ "_id" := VOid 12; "title" := VStr "HW3"; "subject" := VOid 20;
     "createdBy" := VOid 2; "dueDate" := VDate 150; "status" := VStr "completed" ]}.
Definition hw4 : doc :=
  {[ "_id" := VOid 13; "title" := VStr "HW4"; "subject" := VOid 20;
     "createdBy" := VOid 2; "dueDate" := VDate 60; "status" := VStr "pending" ]}.
Definition hw5 : doc :=
  {[ "_id" := VOid 14; "title" := VStr "HW5"; "subject" := VOid 20;
     "createdBy" := VOid 2; "dueDate" := VDate 300 ]}.

Definition term : db :=
  set_assignments {[ 10%N := hw1; 12%N := hw3; 13%N := hw4; 14%N := hw5 ]} sample.

Definition lists (u : User) : request := request_of u (Malformed "") ∅.

(** The administrator creates a Subject; Bob then asks for it by its id. *)
Definition physics_body : doc :=
  {[ "name" := VStr "Physics"; "code" := VStr "PHY101"; "color" := VStr "#00ff00" ]}.
Definition root_creates : request := request_of root (Malformed "") physics_body.
Definition bob_fetches : request := request_of bob (WellFormed 11) ∅.

(** Bodies that the schemas refuse: a Subject without a code, a status
    outside the enumeration. *)
Definition nameless : request :=
  request_of root (WellFormed 20) {[ "code" := VNum 7 ]}.
Definition bad_status (u : User) : request :=
  request_of u (WellFormed 10) {[ "status" := VStr "lost" ]}.

(** The titles of a list answer, in order. *)
Definition titles (out : response * db) : list (option pvalue) :=
  match content out.1 with
  | JList _ l => (λ d : pdoc, d !! "title") <$> l
  | _ => []
  end.

(** An Exam whose date is not a date, and a homework with a title only. *)
Definition bad_exam : request :=
  request_of root (WellFormed 30) {[ "date" := VStr "tomorrow" ]}.
Definition title_only : request :=
  request_of alice (Malformed "") {[ "title" := VStr "HW6" ]}.

(** ** The handlers the three routers register *)

(** The read routes: GET on the list, on the overdue list and on one id. *)
Definition read_routes : list handler :=
  [ subjects.route_get; subjects.route_get_id;
    exams.route_get; exams.route_get_id;
    assignments.route_get; assignments.route_get_overdue; assignments.route_get_id ].

(** The write routes: POST, PUT and DELETE. *)
Definition write_routes (Subject Exam Assignment : Model) : list handler :=
  [ subjects.route_post Subject; subjects.route_put Subject; subjects.route_delete;
    exams.route_post Exam; exams.route_put Exam; exams.route_delete;
    assignments.route_post Assignment; assignments.route_put Assignment;
    assignments.route_delete ].

Definition routes (Subject Exam Assignment : Model) : list handler :=
  read_routes ++ write_routes Subject Exam Assignment.

(** Alice hands her homework to a user who has no account; [orphaned] is
    the database after that update. *)
Definition orphans_hw1 : request :=
  request_of alice (WellFormed 10) {[ "createdBy" := VOid 99 ]}.
Definition orphaned : db :=
  (assignments.route_put AssignmentSchema orphans_hw1 at_200 sample).2.

(** Requests used below: the administrator deletes the Subject and
    Alice's homework, and renames the Subject; Alice reads and completes
    her own homework. *)
Definition root_deletes_math : request := request_of root (WellFormed 20) ∅.
Definition root_deletes_hw1 : request := request_of root (WellFormed 10) ∅.
Definition root_renames_math : request :=
  request_of root (WellFormed 20) {[ "name" := VStr "Mathematics" ]}.
Definition alice_completes : request :=
  request_of alice (WellFormed 10) {[ "status" := VStr "completed" ]}.
Definition alice_creates : request := request_of alice (Malformed "") hw2_body.
Definition alice_fetches : request := request_of alice (WellFormed 11) ∅.

(** An Exam on the Subject of the sample, a student's attempt to create a
    Subject, and requests with an id that matches nothing or is no id. *)
Definition midterm_body : doc := {[ "subject" := VOid 20; "date" := VDate 400 ]}.
Definition root_schedules : request := request_of root (Malformed "") midterm_body.
Definition bob_creates_subject : request := request_of bob (WellFormed 20) physics_body.
Definition bob_asks_missing : request := request_of bob (WellFormed 77) ∅.
Definition bob_asks_garbage : request := request_of bob (Malformed "overdue2") ∅.

(** Bob asks for his own completed homework in the term's database. *)
Definition bob_reads_hw3 : request := request_of bob (WellFormed 12) ∅.
Definition bob_completes_hw4 : request :=
  request_of bob (WellFormed 13) {[ "status" := VStr "completed" ]}.
(** ** The order on sort keys *)

Lemma same_type_leb_total a b : same_type_leb a b = true ∨ same_type_leb b a = true.
Proof.
  destruct a as [[]|], b as [[]|]; simpl; auto.
  - destruct b, b0; auto.
  - rewrite !bool_decide_eq_true; lia.
  - apply String.leb_total.
  - rewrite !bool_decide_eq_true; lia.
  - rewrite !bool_decide_eq_true; lia.
Qed.

Lemma bson_leb_total a b : bson_leb a b = true ∨ bson_leb b a = true.
Proof.
  unfold bson_leb.
  destruct (Z.lt_trichotomy (rank a) (rank b)) as [Hlt | [Heq | Hgt]].
  - left. rewrite (bool_decide_eq_true_2 _ Hlt). done.
  - destruct (same_type_leb_total a b) as [H | H]; [left | right]; rewrite H.
    + rewrite (bool_decide_eq_true_2 _ Heq). apply orb_true_r.
    + rewrite (bool_decide_eq_true_2 (rank b = rank a)) by done. apply orb_true_r.
  - right. rewrite (bool_decide_eq_true_2 _ Hgt). done.
Qed.

#[global] Instance before_total path dir : Total (before path dir).
Proof. intros d1 d2. destruct dir; simpl; apply bson_leb_total. Qed.

Lemma same_type_leb_trans a b c :
  same_type_leb a b = true → same_type_leb b c = true →
  rank a = rank b → rank b = rank c → same_type_leb a c = true.
Proof.
  destruct a as [[]|], b as [[]|], c as [[]|]; simpl; try done;
    rewrite ?bool_decide_eq_true; try lia.
  - destruct b, b0, b1; done.
  - intros H1 H2 _ _. apply Is_true_true. apply Is_true_true in H1, H2.
    change (String.le s s1). by trans s0.
Qed.

Lemma bson_leb_trans a b c :
  bson_leb a b = true → bson_leb b c = true → bson_leb a c = true.
Proof.
  unfold bson_leb. rewrite !orb_true_iff, !andb_true_iff, !bool_decide_eq_true.
  intros [Hab | [Hab Sab]] [Hbc | [Hbc Sbc]].
  - left. lia.
  - left. lia.
  - left. lia.
  - right. split; [lia|]. by apply (same_type_leb_trans a b c).
Qed.

#[global] Instance before_trans path dir : Transitive (before path dir).
Proof.
  intros d1 d2 d3. destruct dir; simpl; intros H1 H2.
  - by apply (bson_leb_trans _ (d2 !! path)).
  - by apply (bson_leb_trans _ (d2 !! path)).
Qed.

Lemma before_dates path d1 d2 t1 t2 :
  d1 !! path = Some (VDate t1) → d2 !! path = Some (VDate t2) →
  (before path Asc d1 d2 ↔ t1 ≤ t2) ∧ (before path Desc d1 d2 ↔ t2 ≤ t1).
Proof.
  intros H1 H2. unfold before, bson_leb. rewrite H1, H2. simpl.
  rewrite !bool_decide_eq_true. done.
Qed.


(** ** Creating an Assignment *)

Lemma create_spec M e coll body :
  (creatable M e coll body
   ∧ create M e coll body = inr (new_doc M e body, <[new_id e body := new_doc M e body]> coll))
  ∨ (¬ creatable M e coll body ∧ ∃ err, create M e coll body = inl err).
Proof.
  unfold create, creatable.
  destruct (body !! "_id") as [v|] eqn:Hid.
  - destruct v; try (right; split; [intros [[?|[? ?]] _]; congruence | eauto]).
    destruct (validator M (new_doc M e body)) eqn:Hv; simpl.
    + destruct (decide (is_Some (coll !! new_id e body))) as [Hs|Hs].
      * right. split; [|eauto]. intros (_ & _ & Hn). rewrite Hn in Hs. by destruct Hs.
      * left. apply eq_None_not_Some in Hs. eauto 10.
    + right. split; [|eauto]. intros (_ & ? & _). congruence.
  - destruct (validator M (new_doc M e body)) eqn:Hv; simpl.
    + destruct (decide (is_Some (coll !! new_id e body))) as [Hs|Hs].
      * right. split; [|eauto]. intros (_ & _ & Hn). rewrite Hn in Hs. by destruct Hs.
      * left. apply eq_None_not_Some in Hs. eauto 10.
    + right. split; [|eauto]. intros (_ & ? & _). congruence.
Qed.

Lemma id_of_new_doc M e body : id_of (new_doc M e body) = Some (new_id e body).
Proof. unfold id_of, new_doc. by rewrite lookup_insert_eq. Qed.

Lemma new_doc_lookup M e body k v :
  k ≠ "_id" → body !! k = Some v → new_doc M e body !! k = Some v.
Proof.
  intros Hk Hb. unfold new_doc. rewrite lookup_insert_ne by done.
  by apply lookup_union_Some_l.
Qed.

(** C1: an Assignment create request either is accepted, and then exactly
    one record is added, whose [createdBy] is the requester's id whatever
    the body said, or fails with 500 and leaves the database as it was.
    The owner field of the body plays no part: it is overwritten before
    the store sees the body. *)
Theorem post_assignment_owner_is_requester (Assignment : Model) req e s :
  let stamped := <["createdBy" := VOid (_id (user req))]> (body req) in
  let out := assignments.route_post Assignment req e s in
  (creatable Assignment e (assignments s) stamped
   ∧ ∃ d, out = (created (JData (assignments.expand out.2 d)), out.2)
       ∧ assignments s !! new_id e (body req) = None
       ∧ out.2 = set_assignments (<[new_id e (body req) := d]> (assignments s)) s
       ∧ d !! "createdBy" = Some (VOid (_id (user req))))
  ∨ (¬ creatable Assignment e (assignments s) stamped
     ∧ status out.1 = 500%nat ∧ success out.1 = false ∧ out.2 = s).
Proof.
  intros stamped out. subst out. unfold assignments.route_post. fold stamped.
  assert (Hid : new_id e stamped = new_id e (body req)).
  { unfold new_id, stamped. by rewrite lookup_insert_ne. }
  destruct (create_spec Assignment e (assignments s) stamped) as [[Hc ->] | [Hc [err ->]]].
  - left. split; [done|]. exists (new_doc Assignment e stamped).
    rewrite id_of_new_doc. simpl. rewrite lookup_insert_eq. simpl. rewrite <- Hid.
    repeat split; try done.
    + apply Hc.
    + apply new_doc_lookup; [done|]. unfold stamped. by rewrite lookup_insert_eq.
  - right. done.
Qed.

Lemma post_assignment_owner_is_requester_witness :
  ∃ d, assignments
         (assignments.route_post AssignmentSchema
            (request_of alice (Malformed "") hw2_body) at_200 sample).2 !! 11%N = Some d
       ∧ d !! "createdBy" = Some (VOid 1).
Proof.
  destruct (post_assignment_owner_is_requester AssignmentSchema
              (request_of alice (Malformed "") hw2_body) at_200 sample)
    as [[_ (d & _ & _ & -> & Hd)] | [Hn _]].
  - exists d. split; [|exact Hd]. apply lookup_insert_eq.
  - exfalso. apply Hn. unfold creatable. split; [left|split]; by vm_compute.
Defined.

(** ** Updating an Assignment *)

(** What PUT /api/assignments/:id does to the collection: nothing, or the
    body laid over one stored document. *)
Lemma put_assignment_effect (Assignment : Model) req e s :
  (assignments.route_put Assignment req e s).2 = s
  ∨ ∃ i old, params_id req = WellFormed i ∧ assignments s !! i = Some old
      ∧ (assignments.route_put Assignment req e s).2
        = set_assignments (<[i := body req ∪ old]> (assignments s)) s.
Proof.
  unfold assignments.route_put.
  destruct (params_id req) as [i|m] eqn:Hp; simpl; [|by left].
  destruct (assignments s !! i) as [old|] eqn:Hold; [|by left].
  destruct (assignments.student_and _ _) as [err|[]]; try by left.
  destruct (negb _); [by left|].
  destruct (decide _); [|by left].
  right. by exists i, old.
Qed.

Lemma put_assignment_keeps_owner_step (Assignment : Model) req e s i d :
  body req !! "createdBy" = None →
  assignments s !! i = Some d →
  ∃ d', assignments (assignments.route_put Assignment req e s).2 !! i = Some d'
        ∧ d' !! "createdBy" = d !! "createdBy".
Proof.
  intros Hb Hd.
  destruct (put_assignment_effect Assignment req e s) as [-> | (j & old & _ & Hold & ->)].
  - by exists d.
  - simpl. destruct (decide (j = i)) as [->|Hne].
    + rewrite lookup_insert_eq. eexists; split; [done|].
      rewrite lookup_union_r by done. congruence.
    + rewrite lookup_insert_ne by done. by exists d.
Qed.

Lemma put_assignments_keep_owner_seq (Assignment : Model) calls s i d :
  Forall (λ c : request * env, body c.1 !! "createdBy" = None) calls →
  assignments s !! i = Some d →
  ∃ d', assignments (serve (assignments.route_put Assignment) calls s) !! i = Some d'
        ∧ d' !! "createdBy" = d !! "createdBy".
Proof.
  intros Hcalls. revert s d.
  induction Hcalls as [|[req e] rest Hb _ IH]; intros s d Hd; simpl.
  - by exists d.
  - destruct (put_assignment_keeps_owner_step Assignment req e s i d Hb Hd)
      as (d1 & Hd1 & Ho1).
    destruct (IH _ _ Hd1) as (d' & Hd' & Ho'). exists d'. split; [done|congruence].
Qed.

Lemma post_assignment_creates (Assignment : Model) req e s :
  creatable Assignment e (assignments s) (<["createdBy" := VOid (_id (user req))]> (body req)) →
  ∃ d, (assignments.route_post Assignment req e s).2
       = set_assignments (<[new_id e (body req) := d]> (assignments s)) s
     ∧ d !! "createdBy" = Some (VOid (_id (user req))).
Proof.
  intros Hc. unfold assignments.route_post.
  set (stamped := <["createdBy" := VOid (_id (user req))]> (body req)) in *.
  assert (Hid : new_id e stamped = new_id e (body req)).
  { unfold new_id, stamped. by rewrite lookup_insert_ne. }
  destruct (create_spec Assignment e (assignments s) stamped) as [[_ ->] | [Hn _]]; [|done].
  exists (new_doc Assignment e stamped). rewrite id_of_new_doc. simpl. rewrite Hid. split; [done|].
  apply new_doc_lookup; [done|]. unfold stamped. by rewrite lookup_insert_eq.
Qed.

(** The owner of an Assignment is the requester who created it, and
    whatever update requests follow, in any number and from any
    requesters, an Assignment keeps the [createdBy] it has as long as no
    request body sets a [createdBy] field. *)
Theorem put_assignments_keep_owner (Assignment : Model) calls :
  Forall (λ c : request * env, body c.1 !! "createdBy" = None) calls →
  (∀ s i d, assignments s !! i = Some d →
     ∃ d', assignments (serve (assignments.route_put Assignment) calls s) !! i = Some d'
           ∧ d' !! "createdBy" = d !! "createdBy")
  ∧ (∀ req e s,
       creatable Assignment e (assignments s)
         (<["createdBy" := VOid (_id (user req))]> (body req)) →
       ∃ d', assignments
               (serve (assignments.route_put Assignment) calls
                  (assignments.route_post Assignment req e s).2) !! new_id e (body req)
             = Some d'
           ∧ d' !! "createdBy" = Some (VOid (_id (user req)))).
Proof.
  intros Hcalls. split.
  - intros s i d. by apply put_assignments_keep_owner_seq.
  - intros req e s Hc.
    destruct (post_assignment_creates Assignment req e s Hc) as (d & -> & Hd).
    destruct (put_assignments_keep_owner_seq Assignment calls
                (set_assignments (<[new_id e (body req) := d]> (assignments s)) s)
                (new_id e (body req)) d Hcalls) as (d' & Hd' & Ho).
    { simpl. apply lookup_insert_eq. }
    exists d'. split; [done|congruence].
Qed.

(** Alice renames her homework, then the administrator marks it completed:
    the owner is still Alice. *)
Lemma put_assignments_keep_owner_witness :
  ∃ d', assignments
          (serve (assignments.route_put AssignmentSchema)
             [(request_of alice (WellFormed 10) {[ "title" := VStr "Homework 1" ]}, at_200);
              (request_of root (WellFormed 10) {[ "status" := VStr "completed" ]}, at_200)]
             sample) !! 10%N = Some d'
        ∧ d' !! "createdBy" = hw1 !! "createdBy".
Proof.
  apply (put_assignments_keep_owner AssignmentSchema
           [(request_of alice (WellFormed 10) {[ "title" := VStr "Homework 1" ]}, at_200);
            (request_of root (WellFormed 10) {[ "status" := VStr "completed" ]}, at_200)]).
  - repeat constructor.
  - reflexivity.
Defined.

(** C2: the update handler breaks the claim.  Where the create handler
    overwrites the [createdBy] of the body with the requester, the update
    handler passes the body to the store as it is: one update request
    from the owner Alice, with Bob in the [createdBy] field of its body,
    is answered with 200 and the stored owner is Bob. *)
Lemma put_assignment_replaces_owner :
  let s' := serve (assignments.route_put AssignmentSchema) [(give_away, at_200)] sample in
  (assignments sample !! 10%N) ≫= (.!! "createdBy") = Some (VOid 1)
  ∧ status (assignments.route_put AssignmentSchema give_away at_200 sample).1 = 200%nat
  ∧ (assignments s' !! 10%N) ≫= (.!! "createdBy") = Some (VOid 2).
Proof. vm_compute. done. Qed.

(** ** Reading and updating an Assignment: who may *)

Lemma expand_createdBy s a o :
  a !! "createdBy" = Some (VOid o) →
  assignments.expand s a !! "createdBy"
  = Some (Populated (select ["name"; "email"] o <$> users s !! o)).
Proof.
  intros Ha. unfold assignments.expand.
  assert (Hl : populate (subjects s) "subject" ["name"; "code"; "color"] (lean a)
               !! "createdBy" = Some (Plain (VOid o))).
  { unfold populate. destruct (lean a !! "subject") as [[[]|]|];
      rewrite ?lookup_insert_ne by done; unfold lean; by rewrite lookup_fmap, Ha. }
  unfold populate at 1. by rewrite Hl, lookup_insert_eq.
Qed.

Lemma expand_owner s a o u (usr : User) :
  a !! "createdBy" = Some (VOid o) → users s !! o = Some u →
  assignments.populated_owner_differs (assignments.expand s a) usr
  = inr (bool_decide (o ≠ _id usr)).
Proof.
  intros Ha Hu. unfold assignments.populated_owner_differs.
  rewrite (expand_createdBy s a o Ha), Hu. simpl.
  unfold select. by rewrite lookup_insert_eq.
Qed.

(** When the owner's account is gone the populated owner is [null], and a
    student's read stops at the property access: 500, for the owner too. *)
Lemma get_assignment_owner_missing req e s i a o :
  role (user req) = "student" →
  params_id req = WellFormed i → assignments s !! i = Some a →
  a !! "createdBy" = Some (VOid o) → users s !! o = None →
  assignments.route_get_id req e s = (failed 500 (JError TypeError), s).
Proof.
  intros Hr Hp Ha Ho Hu. unfold assignments.route_get_id, assignments.student_and,
    assignments.populated_owner_differs.
  rewrite Hp. simpl. rewrite Ha, decide_True by done.
  by rewrite (expand_createdBy s a o Ho), Hu.
Qed.

Lemma findByIdAndUpdate_accepted M coll i old body :
  coll !! i = Some old → update_accepted M i body →
  findByIdAndUpdate M coll (WellFormed i) body
  = inr (Some (body ∪ old), <[i := body ∪ old]> coll).
Proof.
  intros Hold [Hv Hid]. unfold findByIdAndUpdate. rewrite Hv, Hold. simpl.
  by rewrite decide_True.
Qed.

(** A requester who is not a student reaches the store without any look
    at the owner. *)
Lemma get_assignment_unchecked req e s i a :
  role (user req) ≠ "student" →
  params_id req = WellFormed i → assignments s !! i = Some a →
  assignments.route_get_id req e s = (ok (JData (assignments.expand s a)), s).
Proof.
  intros Hr Hp Ha. unfold assignments.route_get_id, assignments.student_and.
  rewrite Hp. simpl. rewrite Ha. by rewrite decide_False.
Qed.

Lemma put_assignment_unchecked (Assignment : Model) req e s i a :
  role (user req) ≠ "student" →
  params_id req = WellFormed i → assignments s !! i = Some a →
  assignments.route_put Assignment req e s
  = match findByIdAndUpdate Assignment (assignments s) (WellFormed i) (body req) with
    | inl error => (failed 500 (JError error), s)
    | inr (updated, coll) =>
        (ok (data_of (assignments.expand (set_assignments coll s) <$> updated)),
         set_assignments coll s)
    end.
Proof.
  intros Hr Hp Ha. unfold assignments.route_put, assignments.student_and.
  rewrite Hp. simpl. rewrite Ha. by rewrite decide_False.
Qed.

Lemma put_assignment_unchecked_result (Assignment : Model) req e s i a :
  role (user req) ≠ "student" →
  params_id req = WellFormed i → assignments s !! i = Some a →
  (update_accepted Assignment i (body req) →
     assignments.route_put Assignment req e s
     = (ok (JData (assignments.expand
                     (set_assignments (<[i := body req ∪ a]> (assignments s)) s)
                     (body req ∪ a))),
        set_assignments (<[i := body req ∪ a]> (assignments s)) s))
  ∧ (status (assignments.route_put Assignment req e s).1 = 200%nat
     ∨ status (assignments.route_put Assignment req e s).1 = 500%nat).
Proof.
  intros Hr Hp Ha.
  rewrite (put_assignment_unchecked Assignment req e s i a Hr Hp Ha). split.
  - intros Hacc. by rewrite (findByIdAndUpdate_accepted _ _ _ a).
  - destruct (findByIdAndUpdate _ _ _ _) as [err|[updated coll]]; simpl; auto.
Qed.

(** A student who asks for, or updates, an existing Assignment owned by
    someone else is refused with 403 and nothing changes (the read needs
    the owner's account to exist, since it compares with the populated
    owner); an administrator reads any existing Assignment, is never
    refused on an update, and the update succeeds when the store accepts
    the body. *)
Theorem assignment_access_by_role (Assignment : Model) req e s i a :
  params_id req = WellFormed i → assignments s !! i = Some a →
  (role (user req) = "student" →
   ∀ o, a !! "createdBy" = Some (VOid o) → o ≠ _id (user req) →
     (is_Some (users s !! o) →
      assignments.route_get_id req e s
      = (failed 403 (JMessage "Not authorized to view this assignment"), s))
     ∧ assignments.route_put Assignment req e s
       = (failed 403 (JMessage "Not authorized to update this assignment"), s))
  ∧ (role (user req) = "admin" →
     assignments.route_get_id req e s = (ok (JData (assignments.expand s a)), s)
     ∧ (update_accepted Assignment i (body req) →
        assignments.route_put Assignment req e s
        = (ok (JData (assignments.expand
                        (set_assignments (<[i := body req ∪ a]> (assignments s)) s)
                        (body req ∪ a))),
           set_assignments (<[i := body req ∪ a]> (assignments s)) s))
     ∧ status (assignments.route_put Assignment req e s).1 ≠ 403%nat).
Proof.
  intros Hp Ha. split.
  - intros Hr o Ho Hne. split.
    + intros [u Hu]. unfold assignments.route_get_id, assignments.student_and.
      rewrite Hp. simpl. rewrite Ha, decide_True by done.
      rewrite (expand_owner s a o u _ Ho Hu). by rewrite bool_decide_eq_true_2.
    + unfold assignments.route_put, assignments.student_and,
        assignments.stored_owner_differs.
      rewrite Hp. simpl. rewrite Ha, decide_True by done.
      rewrite Ho. by rewrite bool_decide_eq_true_2.
  - intros Hr. assert (Hns : role (user req) ≠ "student") by (rewrite Hr; done).
    destruct (put_assignment_unchecked_result Assignment req e s i a Hns Hp Ha)
      as [Hacc Hst].
    split; [by apply (get_assignment_unchecked req e s i a)|]. split; [done|].
    destruct Hst as [-> | ->]; done.
Qed.

Lemma assignment_access_by_role_witness :
  (assignments.route_get_id bob_reads at_200 sample
   = (failed 403 (JMessage "Not authorized to view this assignment"), sample)
   ∧ assignments.route_put AssignmentSchema bob_reads at_200 sample
     = (failed 403 (JMessage "Not authorized to update this assignment"), sample))
  ∧ status (assignments.route_get_id root_completes at_200 sample).1 = 200%nat
  ∧ status (assignments.route_put AssignmentSchema root_completes at_200 sample).1 = 200%nat.
Proof.
  split; [|split].
  - pose proof (assignment_access_by_role AssignmentSchema bob_reads at_200 sample
                  10%N hw1 eq_refl eq_refl) as [H _].
    assert (Hne : 1%N ≠ _id (user bob_reads)) by discriminate.
    destruct (H eq_refl 1%N eq_refl Hne) as [Hget Hput].
    split; [apply Hget; by eexists | exact Hput].
  - pose proof (assignment_access_by_role AssignmentSchema root_completes at_200 sample
                  10%N hw1 eq_refl eq_refl) as [_ H].
    destruct (H eq_refl) as [-> _]. reflexivity.
  - pose proof (assignment_access_by_role AssignmentSchema root_completes at_200 sample
                  10%N hw1 eq_refl eq_refl) as [_ H].
    destruct (H eq_refl) as (_ & Hput & _).
    rewrite Hput; [reflexivity|]. split; [reflexivity|by left].
Defined.

(** C5: a requester whose role is neither [student] nor [admin] is never
    compared with the owner: the read of an existing Assignment succeeds,
    and the update answers exactly as the store's update does, with 200
    when the store accepts the body and never with 403. *)
Theorem assignment_other_roles_unchecked (Assignment : Model) req e s i a :
  role (user req) ≠ "student" → role (user req) ≠ "admin" →
  params_id req = WellFormed i → assignments s !! i = Some a →
  assignments.route_get_id req e s = (ok (JData (assignments.expand s a)), s)
  ∧ assignments.route_put Assignment req e s
    = match findByIdAndUpdate Assignment (assignments s) (WellFormed i) (body req) with
      | inl error => (failed 500 (JError error), s)
      | inr (updated, coll) =>
          (ok (data_of (assignments.expand (set_assignments coll s) <$> updated)),
           set_assignments coll s)
      end
  ∧ (update_accepted Assignment i (body req) →
     assignments.route_put Assignment req e s
     = (ok (JData (assignments.expand
                     (set_assignments (<[i := body req ∪ a]> (assignments s)) s)
                     (body req ∪ a))),
        set_assignments (<[i := body req ∪ a]> (assignments s)) s))
  ∧ status (assignments.route_put Assignment req e s).1 ≠ 403%nat.
Proof.
  intros Hns _ Hp Ha.
  destruct (put_assignment_unchecked_result Assignment req e s i a Hns Hp Ha)
    as [Hacc Hst].
  split; [by apply (get_assignment_unchecked req e s i a)|].
  split; [by apply (put_assignment_unchecked Assignment req e s i a)|]. split; [done|].
  destruct Hst as [-> | ->]; done.
Qed.

Lemma assignment_other_roles_unchecked_witness :
  status (assignments.route_get_id tutor_completes at_200 sample).1 = 200%nat
  ∧ status (assignments.route_put AssignmentSchema tutor_completes at_200 sample).1 = 200%nat.
Proof.
  assert (H1 : role (user tutor_completes) ≠ "student") by discriminate.
  assert (H2 : role (user tutor_completes) ≠ "admin") by discriminate.
  destruct (assignment_other_roles_unchecked AssignmentSchema tutor_completes at_200
              sample 10%N hw1 H1 H2 eq_refl eq_refl) as (Hget & _ & Hput & _).
  rewrite Hget, Hput; [split; reflexivity|]. split; [reflexivity|by left].
Defined.

(** ** Deleting *)

Lemma authorize_admin (h : handler) req e s :
  authorize ["admin"] h req e s
  = if decide (role (user req) = "admin") then h req e s
    else (failed 403 (JRoleDenied (role (user req))), s).
Proof.
  unfold authorize.
  destruct (decide (role (user req) = "admin")) as [Hr|Hr].
  - rewrite decide_True; [done|]. by apply list_elem_of_singleton.
  - rewrite decide_False; [done|]. by rewrite list_elem_of_singleton.
Qed.

(** A route parameter that is not an ObjectId makes the store call throw:
    the administrator's delete answers 500. *)
Lemma delete_malformed_id req e s m :
  role (user req) = "admin" → params_id req = Malformed m →
  subjects.route_delete req e s = (failed 500 (JError CastError), s)
  ∧ exams.route_delete req e s = (failed 500 (JError CastError), s)
  ∧ assignments.route_delete req e s = (failed 500 (JError CastError), s).
Proof.
  intros Hr Hp.
  unfold subjects.route_delete, exams.route_delete, assignments.route_delete.
  rewrite !authorize_admin, !decide_True by done. by rewrite Hp.
Qed.

(** C4: whoever is not an administrator is refused with 403 when deleting
    a Subject, an Exam or an Assignment, whatever the id and whoever owns
    the record, and the database is left as it was; an administrator is
    never refused. *)
Theorem delete_admin_only req e s :
  (role (user req) ≠ "admin" →
   subjects.route_delete req e s = (failed 403 (JRoleDenied (role (user req))), s)
   ∧ exams.route_delete req e s = (failed 403 (JRoleDenied (role (user req))), s)
   ∧ assignments.route_delete req e s = (failed 403 (JRoleDenied (role (user req))), s))
  ∧ (role (user req) = "admin" →
     status (subjects.route_delete req e s).1 ≠ 403%nat
     ∧ status (exams.route_delete req e s).1 ≠ 403%nat
     ∧ status (assignments.route_delete req e s).1 ≠ 403%nat).
Proof.
  unfold subjects.route_delete, exams.route_delete, assignments.route_delete.
  rewrite !authorize_admin. split; intros Hr.
  - by rewrite !decide_False.
  - rewrite !decide_True by done. unfold findByIdAndDelete.
    destruct (params_id req) as [i|m]; simpl; [|done].
    destruct (subjects s !! i), (exams s !! i), (assignments s !! i); done.
Qed.

(** Alice owns the homework she tries to delete. *)
Lemma delete_admin_only_witness :
  hw1 !! "createdBy" = Some (VOid (_id alice))
  ∧ (subjects.route_delete alice_deletes at_200 sample
     = (failed 403 (JRoleDenied "student"), sample)
     ∧ exams.route_delete alice_deletes at_200 sample
       = (failed 403 (JRoleDenied "student"), sample)
     ∧ assignments.route_delete alice_deletes at_200 sample
       = (failed 403 (JRoleDenied "student"), sample))
  ∧ status (assignments.route_delete root_completes at_200 sample).1 = 200%nat.
Proof.
  assert (Hr : role (user alice_deletes) ≠ "admin") by discriminate.
  destruct (delete_admin_only alice_deletes at_200 sample) as [Hstudent _].
  destruct (delete_admin_only root_completes at_200 sample) as [_ Hadmin].
  destruct (Hadmin eq_refl) as (_ & _ & _).
  split; [reflexivity|]. split; [apply (Hstudent Hr)|reflexivity].
Defined.

(** C8: an administrator's delete of an id that matches no record answers
    404 and leaves the database as it was, so that a second delete of the
    same id finds the same database and answers 404 again. *)
Theorem delete_missing_not_found req e e' s i :
  role (user req) = "admin" → params_id req = WellFormed i →
  (subjects s !! i = None →
   subjects.route_delete req e s = (failed 404 (JMessage "Subject not found"), s)
   ∧ subjects.route_delete req e' (subjects.route_delete req e s).2
     = (failed 404 (JMessage "Subject not found"), s))
  ∧ (exams s !! i = None →
     exams.route_delete req e s = (failed 404 (JMessage "Exam not found"), s)
     ∧ exams.route_delete req e' (exams.route_delete req e s).2
       = (failed 404 (JMessage "Exam not found"), s))
  ∧ (assignments s !! i = None →
     assignments.route_delete req e s = (failed 404 (JMessage "Assignment not found"), s)
     ∧ assignments.route_delete req e' (assignments.route_delete req e s).2
       = (failed 404 (JMessage "Assignment not found"), s)).
Proof.
  intros Hr Hp.
  assert (Hs : ∀ e0, subjects s !! i = None →
     subjects.route_delete req e0 s = (failed 404 (JMessage "Subject not found"), s)).
  { intros e0 Hn. unfold subjects.route_delete. rewrite authorize_admin, decide_True by done.
    rewrite Hp. simpl. by rewrite Hn. }
  assert (He : ∀ e0, exams s !! i = None →
     exams.route_delete req e0 s = (failed 404 (JMessage "Exam not found"), s)).
  { intros e0 Hn. unfold exams.route_delete. rewrite authorize_admin, decide_True by done.
    rewrite Hp. simpl. by rewrite Hn. }
  assert (Ha : ∀ e0, assignments s !! i = None →
     assignments.route_delete req e0 s
     = (failed 404 (JMessage "Assignment not found"), s)).
  { intros e0 Hn. unfold assignments.route_delete.
    rewrite authorize_admin, decide_True by done. rewrite Hp. simpl. by rewrite Hn. }
  split; [|split]; intros Hn.
  - rewrite (Hs e Hn). split; [done|]. by apply Hs.
  - rewrite (He e Hn). split; [done|]. by apply He.
  - rewrite (Ha e Hn). split; [done|]. by apply Ha.
Qed.

Lemma delete_missing_not_found_witness :
  subjects.route_delete root_deletes_missing at_200 sample
  = (failed 404 (JMessage "Subject not found"), sample)
  ∧ exams.route_delete root_deletes_missing at_200
      (exams.route_delete root_deletes_missing at_200 sample).2
    = (failed 404 (JMessage "Exam not found"), sample)
  ∧ assignments.route_delete root_deletes_missing at_200 sample
    = (failed 404 (JMessage "Assignment not found"), sample).
Proof.
  destruct (delete_missing_not_found root_deletes_missing at_200 at_200 sample 77%N
              eq_refl eq_refl) as (Hs & He & Ha).
  split; [apply Hs; reflexivity|]. split; [apply He; reflexivity|apply Ha; reflexivity].
Defined.

(** ** Listing *)

Lemma find_spec coll q :
  find coll q = filter (λ d, matches q d = true) (all_docs coll).
Proof. done. Qed.

Lemma elem_of_all_docs coll d : d ∈ all_docs coll ↔ ∃ i, coll !! i = Some d.
Proof.
  unfold all_docs. rewrite list_elem_of_fmap. split.
  - intros [[i d'] [-> Hin]]. exists i. by apply elem_of_map_to_list.
  - intros [i Hi]. exists (i, d). split; [done|]. by apply elem_of_map_to_list.
Qed.

Lemma matches_all d : matches [] d = true.
Proof. done. Qed.

Lemma holds_owner u o : holds (Eq (VOid (_id u))) o = true ↔ o = Some (VOid (_id u)).
Proof.
  simpl. unfold eq_holds. destruct o as [w|]; rewrite bool_decide_eq_true.
  - split; congruence.
  - split; discriminate.
Qed.

Lemma holds_before t o :
  holds (Lt (VDate t)) o = true ↔ match o with Some (VDate due) => due < t | _ => False end.
Proof.
  simpl. unfold bson_leb. rewrite andb_true_iff, bool_decide_eq_true.
  destruct o as [[]|]; simpl; try (split; [intros [? _]; discriminate | done]).
  rewrite negb_true_iff, bool_decide_eq_false. split.
  - intros [_ H]. lia.
  - intros H. split; [done|lia].
Qed.

Lemma holds_not_completed o :
  holds (Ne (VStr "completed")) o = true ↔ o ≠ Some (VStr "completed").
Proof.
  simpl. unfold eq_holds. rewrite negb_true_iff.
  destruct o as [w|]; rewrite bool_decide_eq_false.
  - split; congruence.
  - split; [discriminate | done].
Qed.

Lemma matches_overdue e d :
  matches (assignments.overdue e) d = true ↔ is_overdue (now e) d.
Proof.
  unfold matches, assignments.overdue, is_overdue. cbn [forallb fst snd].
  rewrite !andb_true_iff, holds_before, holds_not_completed. tauto.
Qed.

Lemma matches_own_overdue u e d :
  matches (("createdBy", Eq (VOid (_id u))) :: assignments.overdue e) d = true
  ↔ owned_by u d ∧ is_overdue (now e) d.
Proof.
  change (matches (("createdBy", Eq (VOid (_id u))) :: assignments.overdue e) d)
    with (holds (Eq (VOid (_id u))) (d !! "createdBy") && matches (assignments.overdue e) d).
  by rewrite andb_true_iff, holds_owner, matches_overdue.
Qed.

Lemma matches_own u d :
  matches [("createdBy", Eq (VOid (_id u)))] d = true ↔ owned_by u d.
Proof.
  unfold matches. cbn [forallb fst snd]. rewrite andb_true_r. apply holds_owner.
Qed.

Lemma sort_Permutation path dir l : sort path dir l ≡ₚ l.
Proof. apply merge_sort_Permutation. Qed.

Lemma sort_Sorted path dir l : StronglySorted (before path dir) (sort path dir l).
Proof. apply StronglySorted_merge_sort; apply _. Qed.

(** C6: the overdue list of a student is exactly that student's own
    Assignments that are due strictly before the current time and not
    completed; the one of an administrator is exactly the Assignments of
    all users that are so.  Each is listed once, by ascending due date. *)
Theorem overdue_list req e s :
  ∃ l, assignments.route_get_overdue req e s
       = (ok (JList (length l) (assignments.expand s <$> l)), s)
     ∧ StronglySorted (before "dueDate" Asc) l
     ∧ (role (user req) = "student" →
        l ≡ₚ filter (λ d, owned_by (user req) d ∧ is_overdue (now e) d)
               (all_docs (assignments s))
        ∧ ∀ d, d ∈ l ↔ (∃ i, assignments s !! i = Some d)
                       ∧ owned_by (user req) d ∧ is_overdue (now e) d)
     ∧ (role (user req) = "admin" →
        l ≡ₚ filter (is_overdue (now e)) (all_docs (assignments s))
        ∧ ∀ d, d ∈ l ↔ (∃ i, assignments s !! i = Some d) ∧ is_overdue (now e) d).
Proof.
  unfold assignments.route_get_overdue.
  eexists. split; [by rewrite length_fmap|]. split; [apply sort_Sorted|]. split; intros Hr.
  - rewrite decide_True by done.
    assert (Hp : sort "dueDate" Asc
                   (find (assignments s)
                      (("createdBy", Eq (VOid (_id (user req)))) :: assignments.overdue e))
                 ≡ₚ filter (λ d, owned_by (user req) d ∧ is_overdue (now e) d)
                      (all_docs (assignments s))).
    { rewrite sort_Permutation, find_spec.
      by rewrite (list_filter_iff _ _ _ (matches_own_overdue (user req) e)). }
    split; [done|]. intros d.
    rewrite Hp, list_elem_of_filter, elem_of_all_docs. tauto.
  - rewrite decide_False by (rewrite Hr; done).
    assert (Hp : sort "dueDate" Asc (find (assignments s) (assignments.overdue e))
                 ≡ₚ filter (is_overdue (now e)) (all_docs (assignments s))).
    { rewrite sort_Permutation, find_spec.
      by rewrite (list_filter_iff _ _ _ (matches_overdue e)). }
    split; [done|]. intros d.
    rewrite Hp, list_elem_of_filter, elem_of_all_docs. tauto.
Qed.

Example overdue_for_bob :
  titles (assignments.route_get_overdue (lists bob) at_200 term)
  = [Some (Plain (VStr "HW4"))].
Proof. vm_compute. reflexivity. Qed.

Example overdue_for_root :
  titles (assignments.route_get_overdue (lists root) at_200 term)
  = [Some (Plain (VStr "HW4")); Some (Plain (VStr "HW1"))].
Proof. vm_compute. reflexivity. Qed.

Example all_for_root :
  titles (assignments.route_get (lists root) at_200 term)
  = [Some (Plain (VStr "HW4")); Some (Plain (VStr "HW1"));
     Some (Plain (VStr "HW3")); Some (Plain (VStr "HW5"))].
Proof. vm_compute. reflexivity. Qed.

(** At time 200 Bob's overdue list is his pending homework that was due at
    60; the administrator's also has Alice's. *)
Lemma overdue_list_witness :
  (∃ l, assignments.route_get_overdue (lists bob) at_200 term
        = (ok (JList (length l) (assignments.expand term <$> l)), term)
      ∧ hw4 ∈ l ∧ (hw3 ∉ l) ∧ (hw5 ∉ l) ∧ (hw1 ∉ l))
  ∧ (∃ l, assignments.route_get_overdue (lists root) at_200 term
          = (ok (JList (length l) (assignments.expand term <$> l)), term)
        ∧ hw4 ∈ l ∧ hw1 ∈ l ∧ (hw3 ∉ l) ∧ (hw5 ∉ l)).
Proof.
  split.
  - destruct (overdue_list (lists bob) at_200 term) as (l & Heq & _ & Hst & _).
    destruct (Hst eq_refl) as [_ Hmem]. exists l. split; [exact Heq|].
    rewrite !Hmem. repeat split.
    + by exists 13%N.
    + discriminate.
    + intros (_ & _ & _ & Hs). by apply Hs.
    + intros (_ & _ & Hd & _). vm_compute in Hd. discriminate.
    + intros (_ & Ho & _). discriminate.
  - destruct (overdue_list (lists root) at_200 term) as (l & Heq & _ & _ & Had).
    destruct (Had eq_refl) as [_ Hmem]. exists l. split; [exact Heq|].
    rewrite !Hmem. repeat split.
    + by exists 13%N.
    + discriminate.
    + by exists 10%N.
    + discriminate.
    + intros (_ & _ & Hs). by apply Hs.
    + intros (_ & Hd & _). vm_compute in Hd. discriminate.
Defined.

Lemma expand_keeps s d path :
  path ≠ "subject" → path ≠ "createdBy" →
  assignments.expand s d !! path = Plain <$> d !! path.
Proof.
  intros H1 H2. unfold assignments.expand, populate.
  repeat match goal with
         | |- context [match ?x with _ => _ end] => destruct x
         end;
    rewrite ?lookup_insert_ne by done; unfold lean; by rewrite lookup_fmap.
Qed.

(** C7: every list answers with the whole result, each record once, and in
    order: a student's own Assignments, or all Assignments for any other
    role, by ascending due date; all Exams by ascending date; all Subjects
    by descending creation time.  The count is the length of the list. *)
Theorem lists_whole_and_sorted req e s :
  (∃ l, assignments.route_get req e s
        = (ok (JList (length l) (assignments.expand s <$> l)), s)
      ∧ StronglySorted (before "dueDate" Asc) l
      ∧ l ≡ₚ (if decide (role (user req) = "student")
              then filter (owned_by (user req)) (all_docs (assignments s))
              else all_docs (assignments s)))
  ∧ (∃ l, exams.route_get req e s = (ok (JList (length l) (exams.expand s <$> l)), s)
        ∧ StronglySorted (before "date" Asc) l
        ∧ l ≡ₚ all_docs (exams s))
  ∧ (∃ l, subjects.route_get req e s = (ok (JList (length l) (lean <$> l)), s)
        ∧ StronglySorted (before "createdAt" Desc) l
        ∧ l ≡ₚ all_docs (subjects s)).
Proof.
  assert (Hall : ∀ coll, find coll [] = all_docs coll).
  { intros coll. rewrite find_spec.
    induction (all_docs coll) as [|d l IH]; [done|].
    rewrite filter_cons_True by apply matches_all. by rewrite IH. }
  split; [|split].
  - unfold assignments.route_get. eexists.
    split; [by rewrite length_fmap|]. split; [apply sort_Sorted|].
    rewrite sort_Permutation. destruct (decide (role (user req) = "student")).
    + rewrite find_spec.
      by rewrite (list_filter_iff _ _ _ (matches_own (user req))).
    + by rewrite Hall.
  - unfold exams.route_get. eexists.
    split; [by rewrite length_fmap|]. split; [apply sort_Sorted|].
    by rewrite sort_Permutation, Hall.
  - unfold subjects.route_get. eexists.
    split; [done|]. split; [apply sort_Sorted|].
    by rewrite sort_Permutation, Hall.
Qed.

(** ** Creating a Subject and reading it back *)

(** C9: when an administrator creates a Subject from a valid body, the
    record fetched right after by its id is the record the create
    answered with: it carries every field of the body with the body's
    value, nothing else but the generated [_id] and a creation timestamp
    ([createdAt], the time of the request unless the body gave one). *)
Theorem subject_create_then_get (valid validUpdate : doc → bool) req getter e e' s :
  let Subject := SubjectModel valid validUpdate in
  let out := subjects.route_post Subject req e s in
  role (user req) = "admin" →
  body req !! "_id" = None →
  validator Subject (new_doc Subject e (body req)) = true →
  subjects s !! newId e = None →
  params_id getter = WellFormed (newId e) →
  ∃ r, out = (created (JData (lean r)), set_subjects (<[newId e := r]> (subjects s)) s)
     ∧ subjects.route_get_id getter e' out.2 = (ok (JData (lean r)), out.2)
     ∧ (∀ k v, body req !! k = Some v → r !! k = Some v)
     ∧ (∀ k, k ≠ "_id" → k ≠ "createdAt" → r !! k = body req !! k)
     ∧ r !! "_id" = Some (VOid (newId e))
     ∧ ∃ t, r !! "createdAt" = Some t
          ∧ (body req !! "createdAt" = None → t = VDate (now e)).
Proof.
  intros Subject out Hr Hid Hv Hfree Hp. subst out.
  assert (Hn : new_id e (body req) = newId e) by (unfold new_id; by rewrite Hid).
  exists (new_doc Subject e (body req)).
  unfold subjects.route_post. rewrite authorize_admin, decide_True by done.
  destruct (create_spec Subject e (subjects s) (body req)) as [[_ ->] | [Hc _]].
  2: { exfalso. apply Hc. unfold creatable. rewrite Hn. auto. }
  rewrite Hn. simpl. split; [done|]. split.
  { unfold subjects.route_get_id. rewrite Hp. simpl. by rewrite lookup_insert_eq. }
  unfold new_doc. rewrite Hn. split; [|split; [|split]].
  - intros k v Hk. rewrite lookup_insert_ne by congruence.
    by apply lookup_union_Some_l.
  - intros k Hk1 Hk2. rewrite lookup_insert_ne by done.
    rewrite lookup_union_l; [done|]. simpl. by rewrite lookup_singleton_ne.
  - apply lookup_insert_eq.
  - rewrite lookup_insert_ne by done. simpl.
    destruct (body req !! "createdAt") as [t|] eqn:Ht.
    + exists t. split; [|done]. by apply lookup_union_Some_l.
    + exists (VDate (now e)). split; [|done].
      rewrite lookup_union_r by done. apply lookup_singleton_eq.
Qed.

Lemma subject_create_then_get_witness :
  ∃ r, subjects.route_post SubjectSchema root_creates at_200 sample
       = (created (JData (lean r)), set_subjects (<[11%N := r]> (subjects sample)) sample)
     ∧ subjects.route_get_id bob_fetches at_200
         (subjects.route_post SubjectSchema root_creates at_200 sample).2
       = (ok (JData (lean r)),
          (subjects.route_post SubjectSchema root_creates at_200 sample).2)
     ∧ r !! "code" = Some (VStr "PHY101")
     ∧ r !! "createdAt" = Some (VDate 200).
Proof.
  destruct (subject_create_then_get (validator SubjectSchema) (updateValidator SubjectSchema)
              root_creates bob_fetches at_200 at_200 sample
              eq_refl eq_refl eq_refl eq_refl eq_refl)
    as (r & Hpost & Hget & Hin & _ & _ & t & Ht & Hnow).
  exists r. split; [exact Hpost|]. split; [exact Hget|]. split.
  - by apply Hin.
  - rewrite Ht, Hnow; done.
Defined.

(** ** Bodies that fail validation *)

Lemma create_invalid M e coll body :
  validator M (new_doc M e body) = false → ∃ err, create M e coll body = inl err.
Proof.
  intros Hv. destruct (create_spec M e coll body) as [[(_ & Hc & _) _] | [_ H]]; [|done].
  congruence.
Qed.

Lemma update_invalid M coll p body :
  updateValidator M body = false → ∃ err, findByIdAndUpdate M coll p body = inl err.
Proof.
  intros Hv. unfold findByIdAndUpdate. destruct p; [|eauto]. rewrite Hv. simpl. eauto.
Qed.

(** C10: a create or an update that reaches the store with a body the
    schema refuses is answered with 500 and [success: false], and the
    database is left as it was.  Creating or updating a Subject or an Exam
    reaches the store for an administrator; creating an Assignment always
    does (the body is judged with the owner stamped); updating one does
    when the record exists and the requester passes the owner check. *)
Theorem invalid_body_is_500 (Subject Exam Assignment : Model) req e s :
  let refused (out : response * db) :=
    status out.1 = 500%nat ∧ success out.1 = false ∧ out.2 = s in
  (role (user req) = "admin" →
     (validator Subject (new_doc Subject e (body req)) = false →
      refused (subjects.route_post Subject req e s))
   ∧ (validator Exam (new_doc Exam e (body req)) = false →
      refused (exams.route_post Exam req e s))
   ∧ (updateValidator Subject (body req) = false →
      refused (subjects.route_put Subject req e s))
   ∧ (updateValidator Exam (body req) = false →
      refused (exams.route_put Exam req e s)))
  ∧ (validator Assignment
       (new_doc Assignment e (<["createdBy" := VOid (_id (user req))]> (body req))) = false →
     refused (assignments.route_post Assignment req e s))
  ∧ (∀ i a, params_id req = WellFormed i → assignments s !! i = Some a →
       role (user req) ≠ "student" ∨ a !! "createdBy" = Some (VOid (_id (user req))) →
       updateValidator Assignment (body req) = false →
       refused (assignments.route_put Assignment req e s)).
Proof.
  intros refused. subst refused. cbn beta. split; [|split].
  - intros Hr.
    unfold subjects.route_post, exams.route_post, subjects.route_put, exams.route_put.
    rewrite !authorize_admin, !decide_True by done.
    split; [|split; [|split]]; intros Hv.
    + by destruct (create_invalid Subject e (subjects s) (body req) Hv) as [err ->].
    + by destruct (create_invalid Exam e (exams s) (body req) Hv) as [err ->].
    + by destruct (update_invalid Subject (subjects s) (params_id req) (body req) Hv)
        as [err ->].
    + by destruct (update_invalid Exam (exams s) (params_id req) (body req) Hv)
        as [err ->].
  - intros Hv. unfold assignments.route_post.
    by destruct (create_invalid Assignment e (assignments s) _ Hv) as [err ->].
  - intros i a Hp Ha Hown Hv.
    unfold assignments.route_put, assignments.student_and,
      assignments.stored_owner_differs.
    destruct (update_invalid Assignment (assignments s) (params_id req) (body req) Hv)
      as [err Herr].
    rewrite Herr, Hp. simpl. rewrite Ha.
    destruct (decide (role (user req) = "student")) as [Hst|Hst]; [|done].
    destruct Hown as [Hn | ->]; [done|].
    by rewrite bool_decide_eq_false_2 by tauto.
Qed.

(** The administrator sends a Subject whose code is a number and an Exam
    whose date is a string, each as a create and as an update; Alice
    creates a homework with a title only and sets an unknown status on
    the one she has. *)
Lemma invalid_body_is_500_witness :
  ((subjects.route_post SubjectSchema nameless at_200 sample).1
   = failed 500 (JError ValidationError)
   ∧ (subjects.route_put SubjectSchema nameless at_200 sample).1
     = failed 500 (JError ValidationError))
  ∧ ((exams.route_post ExamSchema bad_exam at_200 sample).1
     = failed 500 (JError ValidationError)
     ∧ (exams.route_put ExamSchema bad_exam at_200 sample).1
       = failed 500 (JError ValidationError))
  ∧ (assignments.route_post AssignmentSchema title_only at_200 sample
     = (failed 500 (JError ValidationError), sample)
     ∧ assignments.route_put AssignmentSchema (bad_status alice) at_200 sample
       = (failed 500 (JError ValidationError), sample)).
Proof.
  destruct (invalid_body_is_500 SubjectSchema ExamSchema AssignmentSchema nameless
              at_200 sample) as (Hsubject & _ & _).
  destruct (invalid_body_is_500 SubjectSchema ExamSchema AssignmentSchema bad_exam
              at_200 sample) as (Hexam & _ & _).
  destruct (invalid_body_is_500 SubjectSchema ExamSchema AssignmentSchema title_only
              at_200 sample) as (_ & Hcreate & _).
  destruct (invalid_body_is_500 SubjectSchema ExamSchema AssignmentSchema
              (bad_status alice) at_200 sample) as (_ & _ & Hupdate).
  destruct (Hsubject eq_refl) as (Hpost & _ & Hput & _).
  destruct (Hexam eq_refl) as (_ & Hpost' & _ & Hput').
  destruct (Hpost eq_refl) as (_ & _ & _). destruct (Hput eq_refl) as (_ & _ & _).
  destruct (Hpost' eq_refl) as (_ & _ & _). destruct (Hput' eq_refl) as (_ & _ & _).
  destruct (Hcreate eq_refl) as (_ & _ & _).
  destruct (Hupdate 10%N hw1 eq_refl eq_refl (or_intror eq_refl) eq_refl) as (_ & _ & _).
  repeat split; reflexivity.
Defined.

(** ** An Assignment whose owner has no account *)

(** C3: the read handler breaks the claim.  After Alice's update has named
    a user without an account as the owner of her homework, the student
    Bob, who does not own it, asks for it: the populated owner is [null],
    the comparison of the read handler throws on it and the answer is 500,
    not 403.  The update handler, which compares with the stored id,
    refuses Bob with 403 on the same database. *)
Lemma student_read_of_orphaned_assignment_is_500 :
  (assignments orphaned !! 10%N) ≫= (.!! "createdBy") = Some (VOid 99)
  ∧ users orphaned !! 99%N = None
  ∧ role (user bob_reads) = "student" ∧ _id (user bob_reads) ≠ 99%N
  ∧ assignments.route_get_id bob_reads at_200 orphaned
    = (failed 500 (JError TypeError), orphaned)
  ∧ assignments.route_put AssignmentSchema bob_reads at_200 orphaned
    = (failed 403 (JMessage "Not authorized to update this assignment"), orphaned).
Proof. repeat split; by vm_compute. Qed.

(** ** Every route: what a request can and cannot change *)

Ltac handler_cases :=
  unfold subjects.route_get, subjects.route_get_id, subjects.route_post,
    subjects.route_put, subjects.route_delete,
    exams.route_get, exams.route_get_id, exams.route_post, exams.route_put,
    exams.route_delete,
    assignments.route_get, assignments.route_get_overdue, assignments.route_get_id,
    assignments.route_post, assignments.route_put, assignments.route_delete,
    authorize, create, findById, findByIdAndUpdate, findByIdAndDelete in *;
  repeat case_match; simplify_eq/=.

(** The same, keeping the store calls closed: only the shape of the
    response is of interest. *)
Ltac response_cases :=
  unfold subjects.route_get, subjects.route_get_id, subjects.route_post,
    subjects.route_put, subjects.route_delete,
    exams.route_get, exams.route_get_id, exams.route_post, exams.route_put,
    exams.route_delete,
    assignments.route_get, assignments.route_get_overdue, assignments.route_get_id,
    assignments.route_post, assignments.route_put, assignments.route_delete,
    authorize in *;
  repeat case_match; simplify_eq; cbn [fst status success ok created failed].

Ltac each_route H :=
  unfold routes, read_routes, write_routes in H;
  repeat (apply elem_of_cons in H as [-> | H]);
  [.. | by apply elem_of_nil in H].

(** No route writes to the users, and each router writes to its own
    collection only: deleting a Subject removes no Assignment and no Exam
    that refers to it. *)
Theorem routers_keep_to_their_collection (Subject Exam Assignment : Model) req e s :
  (∀ h, h ∈ routes Subject Exam Assignment → users (h req e s).2 = users s)
  ∧ (∀ h, h ∈ [subjects.route_post Subject; subjects.route_put Subject;
               subjects.route_delete] →
       assignments (h req e s).2 = assignments s ∧ exams (h req e s).2 = exams s)
  ∧ (∀ h, h ∈ [exams.route_post Exam; exams.route_put Exam; exams.route_delete] →
       assignments (h req e s).2 = assignments s ∧ subjects (h req e s).2 = subjects s)
  ∧ (∀ h, h ∈ [assignments.route_post Assignment; assignments.route_put Assignment;
               assignments.route_delete] →
       subjects (h req e s).2 = subjects s ∧ exams (h req e s).2 = exams s)
  ∧ (∀ h, h ∈ read_routes → (h req e s).2 = s).
Proof.
  split; [|split; [|split; [|split]]]; intros h Hh.
  - each_route Hh; handler_cases; done.
  - repeat (apply elem_of_cons in Hh as [-> | Hh]); [.. | by apply elem_of_nil in Hh];
      handler_cases; done.
  - repeat (apply elem_of_cons in Hh as [-> | Hh]); [.. | by apply elem_of_nil in Hh];
      handler_cases; done.
  - repeat (apply elem_of_cons in Hh as [-> | Hh]); [.. | by apply elem_of_nil in Hh];
      handler_cases; done.
  - each_route Hh; handler_cases; done.
Qed.

Lemma routers_keep_to_their_collection_witness :
  assignments (subjects.route_delete (request_of root (WellFormed 20) ∅) at_200 sample).2
  = assignments sample
  ∧ subjects (subjects.route_delete (request_of root (WellFormed 20) ∅) at_200 sample).2
    = ∅.
Proof.
  pose proof (routers_keep_to_their_collection SubjectSchema ExamSchema AssignmentSchema
                (request_of root (WellFormed 20) ∅) at_200 sample) as (_ & Hown & _).
  split; [|by vm_compute].
  apply (Hown subjects.route_delete). repeat constructor.
Defined.

(** ** Deleting a record that exists *)

(** An administrator's delete of an existing record answers 200 with an
    empty object and removes that record and no other; a read of the id
    right after answers 404, and so does a second delete. *)
Theorem delete_then_gone req getter e e' s i :
  role (user req) = "admin" →
  params_id req = WellFormed i → params_id getter = WellFormed i →
  (is_Some (subjects s !! i) →
   let s' := set_subjects (delete i (subjects s)) s in
   subjects.route_delete req e s = (ok JEmpty, s')
   ∧ subjects.route_get_id getter e' s' = (failed 404 (JMessage "Subject not found"), s')
   ∧ subjects.route_delete req e' s' = (failed 404 (JMessage "Subject not found"), s'))
  ∧ (is_Some (exams s !! i) →
     let s' := set_exams (delete i (exams s)) s in
     exams.route_delete req e s = (ok JEmpty, s')
     ∧ exams.route_get_id getter e' s' = (failed 404 (JMessage "Exam not found"), s')
     ∧ exams.route_delete req e' s' = (failed 404 (JMessage "Exam not found"), s'))
  ∧ (is_Some (assignments s !! i) →
     let s' := set_assignments (delete i (assignments s)) s in
     assignments.route_delete req e s = (ok JEmpty, s')
     ∧ assignments.route_get_id getter e' s'
       = (failed 404 (JMessage "Assignment not found"), s')
     ∧ assignments.route_delete req e' s'
       = (failed 404 (JMessage "Assignment not found"), s')).
Proof.
  intros Hr Hp Hg. split; [|split]; intros [d Hd]; cbn zeta.
  - unfold subjects.route_delete, subjects.route_get_id.
    rewrite !authorize_admin, !decide_True by done. rewrite Hp, Hg. simpl.
    by rewrite Hd, lookup_delete_eq.
  - unfold exams.route_delete, exams.route_get_id.
    rewrite !authorize_admin, !decide_True by done. rewrite Hp, Hg. simpl.
    by rewrite Hd, lookup_delete_eq.
  - unfold assignments.route_delete, assignments.route_get_id.
    rewrite !authorize_admin, !decide_True by done. rewrite Hp, Hg. simpl.
    by rewrite Hd, lookup_delete_eq.
Qed.

Lemma delete_then_gone_witness :
  let s' := set_assignments (delete 10%N (assignments sample)) sample in
  assignments.route_delete root_deletes_hw1 at_200 sample = (ok JEmpty, s')
  ∧ assignments.route_get_id (request_of alice (WellFormed 10) ∅) at_200 s'
    = (failed 404 (JMessage "Assignment not found"), s').
Proof.
  destruct (delete_then_gone root_deletes_hw1 (request_of alice (WellFormed 10) ∅)
              at_200 at_200 sample 10%N eq_refl eq_refl eq_refl) as (_ & _ & Ha).
  destruct Ha as (Hdel & Hget & _); [by eexists|].
  split; [exact Hdel | exact Hget].
Defined.

(** ** Updating a Subject or an Exam and reading it back *)

(** An administrator's accepted update of an existing Subject or Exam
    answers 200 with the stored document after the update: every field of
    the body has the body's value, every other field keeps its value, and
    no other record changes; a read of the id right after answers with the
    same document. *)
Theorem update_then_get (Subject Exam : Model) req getter e e' s i old :
  role (user req) = "admin" →
  params_id req = WellFormed i → params_id getter = WellFormed i →
  let d := body req ∪ old in
  ((∀ k v, body req !! k = Some v → d !! k = Some v)
   ∧ (∀ k, body req !! k = None → d !! k = old !! k))
  ∧ (subjects s !! i = Some old → update_accepted Subject i (body req) →
     let s' := set_subjects (<[i := d]> (subjects s)) s in
     subjects.route_put Subject req e s = (ok (JData (lean d)), s')
     ∧ subjects.route_get_id getter e' s' = (ok (JData (lean d)), s'))
  ∧ (exams s !! i = Some old → update_accepted Exam i (body req) →
     let s' := set_exams (<[i := d]> (exams s)) s in
     exams.route_put Exam req e s = (ok (JData (exams.expand s' d)), s')
     ∧ exams.route_get_id getter e' s' = (ok (JData (exams.expand s' d)), s')).
Proof.
  intros Hr Hp Hg d. split; [split|split].
  - intros k v Hk. by apply lookup_union_Some_l.
  - intros k Hk. by apply lookup_union_r.
  - intros Hold Hacc. cbn zeta. unfold subjects.route_put, subjects.route_get_id.
    rewrite authorize_admin, decide_True by done. rewrite Hp, Hg.
    rewrite (findByIdAndUpdate_accepted _ _ _ old) by done. simpl.
    by rewrite lookup_insert_eq.
  - intros Hold Hacc. cbn zeta. unfold exams.route_put, exams.route_get_id.
    rewrite authorize_admin, decide_True by done. rewrite Hp, Hg.
    rewrite (findByIdAndUpdate_accepted _ _ _ old) by done. simpl.
    by rewrite lookup_insert_eq.
Qed.

Lemma update_then_get_witness :
  ∃ d, subjects.route_put SubjectSchema root_renames_math at_200 sample
       = (ok (JData (lean d)), set_subjects {[ 20%N := d ]} sample)
     ∧ d !! "name" = Some (VStr "Mathematics")
     ∧ d !! "code" = Some (VStr "MATH101").
Proof.
  destruct (update_then_get SubjectSchema ExamSchema root_renames_math
              (request_of bob (WellFormed 20) ∅) at_200 at_200 sample 20%N math
              eq_refl eq_refl eq_refl) as ([Hin Hout] & Hs & _).
  destruct Hs as [Hput _]; [reflexivity | split; [reflexivity | by left] |].
  eexists. split; [|split].
  - rewrite Hput. reflexivity.
  - by apply Hin.
  - by rewrite Hout.
Defined.

(** ** The owner's own Assignment *)

Lemma put_assignment_permitted (Assignment : Model) req e s i a :
  params_id req = WellFormed i → assignments s !! i = Some a →
  role (user req) ≠ "student" ∨ a !! "createdBy" = Some (VOid (_id (user req))) →
  assignments.route_put Assignment req e s
  = match findByIdAndUpdate Assignment (assignments s) (WellFormed i) (body req) with
    | inl error => (failed 500 (JError error), s)
    | inr (updated, coll) =>
        (ok (data_of (assignments.expand (set_assignments coll s) <$> updated)),
         set_assignments coll s)
    end.
Proof.
  intros Hp Ha Hown.
  destruct (decide (role (user req) = "student")) as [Hr|Hr].
  - destruct Hown as [Hn | Ho]; [done|].
    unfold assignments.route_put, assignments.student_and,
      assignments.stored_owner_differs.
    rewrite Hp. simpl. rewrite Ha, Ho, decide_True by done.
    by rewrite bool_decide_eq_false_2 by tauto.
  - by apply (put_assignment_unchecked Assignment req e s i a).
Qed.

Lemma put_assignment_permitted_accepted (Assignment : Model) req e s i a :
  params_id req = WellFormed i → assignments s !! i = Some a →
  role (user req) ≠ "student" ∨ a !! "createdBy" = Some (VOid (_id (user req))) →
  update_accepted Assignment i (body req) →
  assignments.route_put Assignment req e s
  = (ok (JData (assignments.expand
                  (set_assignments (<[i := body req ∪ a]> (assignments s)) s)
                  (body req ∪ a))),
     set_assignments (<[i := body req ∪ a]> (assignments s)) s).
Proof.
  intros Hp Ha Hown Hacc. rewrite (put_assignment_permitted Assignment req e s i a) by done.
  by rewrite (findByIdAndUpdate_accepted _ _ _ a).
Qed.

(** A student reads and updates an Assignment of their own: the read
    answers 200 with the expanded document (the student's account is the
    populated owner, so it has to exist), and the update is never refused
    with 403 and answers 200 with the updated document when the store
    accepts the body. *)
Theorem owner_reads_and_updates (Assignment : Model) req e s i a :
  role (user req) = "student" →
  params_id req = WellFormed i → assignments s !! i = Some a →
  a !! "createdBy" = Some (VOid (_id (user req))) →
  (is_Some (users s !! _id (user req)) →
   assignments.route_get_id req e s = (ok (JData (assignments.expand s a)), s))
  ∧ (update_accepted Assignment i (body req) →
     let s' := set_assignments (<[i := body req ∪ a]> (assignments s)) s in
     assignments.route_put Assignment req e s
     = (ok (JData (assignments.expand s' (body req ∪ a))), s'))
  ∧ status (assignments.route_put Assignment req e s).1 ≠ 403%nat.
Proof.
  intros Hr Hp Ha Ho.
  pose proof (put_assignment_permitted Assignment req e s i a Hp Ha (or_intror Ho))
    as Hput.
  split; [|split].
  - intros [u Hu]. unfold assignments.route_get_id, assignments.student_and.
    rewrite Hp. simpl. rewrite Ha, decide_True by done.
    rewrite (expand_owner s a _ u _ Ho Hu). by rewrite bool_decide_eq_false_2 by tauto.
  - intros Hacc. rewrite Hput. by rewrite (findByIdAndUpdate_accepted _ _ _ a).
  - rewrite Hput. by destruct (findByIdAndUpdate _ _ _ _) as [err|[updated coll]].
Qed.

Lemma owner_reads_and_updates_witness :
  status (assignments.route_get_id alice_completes at_200 sample).1 = 200%nat
  ∧ status (assignments.route_put AssignmentSchema alice_completes at_200 sample).1
    = 200%nat.
Proof.
  destruct (owner_reads_and_updates AssignmentSchema alice_completes at_200 sample 10%N hw1
              eq_refl eq_refl eq_refl eq_refl) as (Hget & Hput & _).
  rewrite Hget, Hput; [split; exact eq_refl | split; [reflexivity|by left] | by eexists].
Defined.

(** After a student has handed an Assignment to another user with an
    update, the student's next update of it is refused with 403, and so
    is the next read once the new owner's account exists. *)
Theorem handing_over_locks_out (Assignment : Model) req e e' s i a o :
  role (user req) = "student" →
  params_id req = WellFormed i → assignments s !! i = Some a →
  a !! "createdBy" = Some (VOid (_id (user req))) →
  body req !! "createdBy" = Some (VOid o) → o ≠ _id (user req) →
  update_accepted Assignment i (body req) →
  let s' := (assignments.route_put Assignment req e s).2 in
  assignments.route_put Assignment req e' s'
  = (failed 403 (JMessage "Not authorized to update this assignment"), s')
  ∧ (is_Some (users s !! o) →
     assignments.route_get_id req e' s'
     = (failed 403 (JMessage "Not authorized to view this assignment"), s')).
Proof.
  intros Hr Hp Ha Ho Hb Hne Hacc s'.
  assert (Hs' : s' = set_assignments (<[i := body req ∪ a]> (assignments s)) s).
  { unfold s'.
    by rewrite (put_assignment_permitted_accepted Assignment req e s i a)
      by (done || by right). }
  assert (Hnew : (body req ∪ a) !! "createdBy" = Some (VOid o))
    by (by apply lookup_union_Some_l).
  rewrite Hs'. split.
  - unfold assignments.route_put, assignments.student_and,
      assignments.stored_owner_differs.
    rewrite Hp. simpl. rewrite lookup_insert_eq, Hnew, decide_True by done.
    by rewrite bool_decide_eq_true_2.
  - intros [u Hu]. unfold assignments.route_get_id, assignments.student_and.
    rewrite Hp. simpl. rewrite lookup_insert_eq, decide_True by done.
    rewrite (expand_owner _ _ o u _ Hnew) by done.
    by rewrite bool_decide_eq_true_2.
Qed.

Lemma handing_over_locks_out_witness :
  status (assignments.route_put AssignmentSchema give_away at_200
            (assignments.route_put AssignmentSchema give_away at_200 sample).2).1
  = 403%nat.
Proof.
  assert (Hne : 2%N ≠ _id (user give_away)) by discriminate.
  destruct (handing_over_locks_out AssignmentSchema give_away at_200 at_200 sample
              10%N hw1 2%N eq_refl eq_refl eq_refl eq_refl eq_refl Hne) as [Hput _].
  - split; [reflexivity|by left].
  - by rewrite Hput.
Defined.

(** ** Creating and then reading *)

Lemma post_exam_accepted (Exam : Model) req e s :
  role (user req) = "admin" → creatable Exam e (exams s) (body req) →
  let d := new_doc Exam e (body req) in
  let s' := set_exams (<[new_id e (body req) := d]> (exams s)) s in
  exams.route_post Exam req e s = (created (JData (exams.expand s' d)), s').
Proof.
  intros Hr Hc. cbn zeta. unfold exams.route_post.
  rewrite authorize_admin, decide_True by done.
  destruct (create_spec Exam e (exams s) (body req)) as [[_ ->] | [Hn _]]; [|done].
  rewrite id_of_new_doc. simpl. by rewrite lookup_insert_eq.
Qed.

Lemma post_assignment_accepted (Assignment : Model) req e s :
  let stamped := <["createdBy" := VOid (_id (user req))]> (body req) in
  creatable Assignment e (assignments s) stamped →
  let d := new_doc Assignment e stamped in
  let s' := set_assignments (<[new_id e (body req) := d]> (assignments s)) s in
  assignments.route_post Assignment req e s
  = (created (JData (assignments.expand s' d)), s').
Proof.
  intros stamped Hc. cbn zeta. unfold assignments.route_post. fold stamped.
  assert (Hid : new_id e stamped = new_id e (body req)).
  { unfold new_id, stamped. by rewrite lookup_insert_ne. }
  destruct (create_spec Assignment e (assignments s) stamped) as [[_ ->] | [Hn _]]; [|done].
  rewrite id_of_new_doc. simpl. rewrite lookup_insert_eq. simpl. by rewrite Hid.
Qed.

(** What an accepted create of an Exam or an Assignment answers is what a
    read of the new id answers right after: the stored document with its
    references expanded.  For an Assignment the reader is its creator; a
    student's read compares with the populated owner, so the creator's
    account has to exist. *)
Theorem create_then_get (Exam Assignment : Model) req getter e e' s :
  params_id getter = WellFormed (new_id e (body req)) →
  (role (user req) = "admin" → creatable Exam e (exams s) (body req) →
   ∃ data, (exams.route_post Exam req e s).1 = created (JData data)
         ∧ (exams.route_get_id getter e' (exams.route_post Exam req e s).2).1
           = ok (JData data))
  ∧ (creatable Assignment e (assignments s)
       (<["createdBy" := VOid (_id (user req))]> (body req)) →
     user getter = user req →
     role (user req) ≠ "student" ∨ is_Some (users s !! _id (user req)) →
     ∃ data, (assignments.route_post Assignment req e s).1 = created (JData data)
           ∧ (assignments.route_get_id getter e'
                (assignments.route_post Assignment req e s).2).1
             = ok (JData data)).
Proof.
  intros Hg. split.
  - intros Hr Hc. rewrite (post_exam_accepted Exam req e s Hr Hc).
    eexists. split; [done|]. unfold exams.route_get_id. rewrite Hg. simpl.
    by rewrite lookup_insert_eq.
  - intros Hc Hu Hacc. rewrite (post_assignment_accepted Assignment req e s Hc).
    eexists. split; [done|].
    set (stamped := <["createdBy" := VOid (_id (user req))]> (body req)) in *.
    set (d := new_doc Assignment e stamped).
    assert (Hd : d !! "createdBy" = Some (VOid (_id (user req)))).
    { apply new_doc_lookup; [done|]. unfold stamped. by rewrite lookup_insert_eq. }
    unfold assignments.route_get_id, assignments.student_and.
    rewrite Hg, Hu. simpl. rewrite lookup_insert_eq.
    destruct (decide (role (user req) = "student")) as [Hst|Hst]; [|done].
    destruct Hacc as [Hn | [u Hus]]; [done|].
    rewrite (expand_owner _ d _ u _ Hd) by done.
    by rewrite bool_decide_eq_false_2 by tauto.
Qed.

Lemma create_then_get_witness :
  (∃ data, (exams.route_post ExamSchema root_schedules at_200 sample).1
           = created (JData data)
         ∧ (exams.route_get_id bob_fetches at_200
              (exams.route_post ExamSchema root_schedules at_200 sample).2).1
           = ok (JData data))
  ∧ (∃ data, (assignments.route_post AssignmentSchema alice_creates at_200 sample).1
             = created (JData data)
           ∧ (assignments.route_get_id alice_fetches at_200
                (assignments.route_post AssignmentSchema alice_creates at_200 sample).2).1
             = ok (JData data)).
Proof.
  split.
  - apply (create_then_get ExamSchema AssignmentSchema root_schedules bob_fetches
             at_200 at_200 sample eq_refl); [reflexivity|].
    unfold creatable. split; [by left|]. split; by vm_compute.
  - apply (create_then_get ExamSchema AssignmentSchema alice_creates alice_fetches
             at_200 at_200 sample eq_refl).
    + unfold creatable. split; [by left|]. split; by vm_compute.
    + reflexivity.
    + right. by eexists.
Defined.

Lemma elem_of_sort_find coll q path dir d :
  d ∈ sort path dir (find coll q) ↔ (∃ i, coll !! i = Some d) ∧ matches q d = true.
Proof.
  rewrite sort_Permutation, find_spec, list_elem_of_filter, elem_of_all_docs. tauto.
Qed.

(** An Assignment that has just been created is in the list its creator
    gets right after, whatever the creator's role. *)
Theorem create_then_listed (Assignment : Model) req lister e e' s :
  creatable Assignment e (assignments s)
    (<["createdBy" := VOid (_id (user req))]> (body req)) →
  user lister = user req →
  let s' := (assignments.route_post Assignment req e s).2 in
  ∃ d l, assignments s' !! new_id e (body req) = Some d
       ∧ assignments.route_get lister e' s'
         = (ok (JList (length l) (assignments.expand s' <$> l)), s')
       ∧ d ∈ l.
Proof.
  intros Hc Hu s'. unfold s'.
  rewrite (post_assignment_accepted Assignment req e s Hc). simpl.
  set (stamped := <["createdBy" := VOid (_id (user req))]> (body req)) in *.
  set (d := new_doc Assignment e stamped). exists d.
  unfold assignments.route_get. eexists.
  split; [apply lookup_insert_eq|]. split; [by rewrite length_fmap|].
  assert (Hstored : ∃ i, <[new_id e (body req) := d]> (assignments s) !! i = Some d).
  { eexists. apply lookup_insert_eq. }
  destruct (decide (role (user lister) = "student")); apply elem_of_sort_find.
  - split; [done|]. apply matches_own. unfold owned_by. rewrite Hu.
    apply new_doc_lookup; [done|]. unfold stamped. by rewrite lookup_insert_eq.
  - split; [done|]. apply matches_all.
Qed.

Lemma create_then_listed_witness :
  let s' := (assignments.route_post AssignmentSchema alice_creates at_200 sample).2 in
  ∃ d l, assignments s' !! 11%N = Some d
       ∧ assignments.route_get (lists alice) at_200 s'
         = (ok (JList (length l) (assignments.expand s' <$> l)), s')
       ∧ d ∈ l.
Proof.
  apply (create_then_listed AssignmentSchema alice_creates (lists alice)
           at_200 at_200 sample).
  - unfold creatable. split; [by left|]. split; by vm_compute.
  - reflexivity.
Defined.

(** ** What an expanded reference shows *)

Lemma select_lookup fields i d k :
  select fields i d !! k
  = if decide (k = "_id") then Some (VOid i)
    else if decide (k ∈ fields) then d !! k else None.
Proof.
  unfold select. destruct (decide (k = "_id")) as [->|Hk].
  - apply lookup_insert_eq.
  - rewrite lookup_insert_ne by done. destruct (decide (k ∈ fields)) as [Hin|Hin].
    + destruct (d !! k) as [v|] eqn:Hd.
      * by apply map_lookup_filter_Some.
      * apply map_lookup_filter_None. by left.
    + apply map_lookup_filter_None. right. intros v _. exact Hin.
Qed.

Lemma populate_other refs path fields d k :
  k ≠ path → populate refs path fields d !! k = d !! k.
Proof.
  intros Hk. unfold populate. repeat case_match; try done. by rewrite lookup_insert_ne.
Qed.

Lemma populate_path refs path fields d :
  populate refs path fields d !! path
  = match d !! path with
    | Some (Plain (VOid r)) => Some (Populated (select fields r <$> refs !! r))
    | other => other
    end.
Proof. unfold populate. repeat case_match; simplify_eq; try done. apply lookup_insert_eq. Qed.

Lemma lean_lookup d k : lean d !! k = Plain <$> d !! k.
Proof. unfold lean. apply lookup_fmap. Qed.

(** In every Assignment sent to a client the owner appears as the id,
    name and email of the owner's account and nothing else of it, and the
    Subject as its id, name, code and colour; a reference that does not
    resolve appears as [null].  No other field of the Assignment is
    touched. *)
Theorem expanded_assignment_fields s a :
  (∀ o, a !! "createdBy" = Some (VOid o) →
     match users s !! o with
     | Some u =>
         ∃ shown, assignments.expand s a !! "createdBy" = Some (Populated (Some shown))
                ∧ shown !! "_id" = Some (VOid o)
                ∧ shown !! "name" = u !! "name" ∧ shown !! "email" = u !! "email"
                ∧ ∀ k, k ∉ ["_id"; "name"; "email"] → shown !! k = None
     | None => assignments.expand s a !! "createdBy" = Some (Populated None)
     end)
  ∧ (∀ j, a !! "subject" = Some (VOid j) →
       match subjects s !! j with
       | Some subject =>
           ∃ shown, assignments.expand s a !! "subject" = Some (Populated (Some shown))
                  ∧ shown !! "_id" = Some (VOid j)
                  ∧ shown !! "name" = subject !! "name"
                  ∧ shown !! "code" = subject !! "code"
                  ∧ shown !! "color" = subject !! "color"
                  ∧ ∀ k, k ∉ ["_id"; "name"; "code"; "color"] → shown !! k = None
       | None => assignments.expand s a !! "subject" = Some (Populated None)
       end)
  ∧ (∀ k, k ≠ "createdBy" → k ≠ "subject" →
       assignments.expand s a !! k = Plain <$> a !! k).
Proof.
  split; [|split].
  - intros o Ho. rewrite (expand_createdBy s a o Ho).
    destruct (users s !! o) as [u|]; [|done]. simpl.
    eexists. split; [done|]. rewrite !select_lookup. simpl.
    repeat split. intros k Hk. rewrite select_lookup.
    apply not_elem_of_cons in Hk as [Hk1 Hk2]. by rewrite !decide_False.
  - intros j Hj. unfold assignments.expand.
    rewrite populate_other by done. rewrite populate_path, lean_lookup, Hj. simpl.
    destruct (subjects s !! j) as [subject|]; [|done]. simpl.
    eexists. split; [done|]. rewrite !select_lookup. simpl.
    repeat split. intros k Hk. rewrite select_lookup.
    apply not_elem_of_cons in Hk as [Hk1 Hk2]. by rewrite !decide_False.
  - intros k H1 H2. by apply expand_keeps.
Qed.

Lemma expanded_assignment_fields_witness :
  ∃ shown, assignments.expand sample hw1 !! "createdBy" = Some (Populated (Some shown))
         ∧ shown !! "name" = Some (VStr "Alice")
         ∧ shown !! "role" = None.
Proof.
  destruct (expanded_assignment_fields sample hw1) as (Howner & _ & _).
  destruct (Howner 1%N eq_refl) as (shown & Hs & _ & Hname & _ & Hrest).
  exists shown. split; [exact Hs|]. split; [by rewrite Hname|].
  apply Hrest. intros Hin.
  repeat (apply elem_of_cons in Hin as [Heq | Hin]; [discriminate Heq|]).
  by apply elem_of_nil in Hin.
Defined.

(** Deleting a Subject does not cascade: the Assignments and Exams that
    refer to it stay, and from then on they are sent with [subject: null]. *)
Theorem subject_delete_leaves_references req e s j d :
  role (user req) = "admin" → params_id req = WellFormed j →
  is_Some (subjects s !! j) → d !! "subject" = Some (VOid j) →
  let s' := (subjects.route_delete req e s).2 in
  assignments s' = assignments s ∧ exams s' = exams s
  ∧ assignments.expand s' d !! "subject" = Some (Populated None)
  ∧ exams.expand s' d !! "subject" = Some (Populated None).
Proof.
  intros Hr Hp [subject Hs] Hd s'.
  assert (Hs' : s' = set_subjects (delete j (subjects s)) s).
  { unfold s', subjects.route_delete. rewrite authorize_admin, decide_True by done.
    rewrite Hp. simpl. by rewrite Hs. }
  rewrite Hs'. split; [done|]. split; [done|].
  unfold assignments.expand, exams.expand.
  rewrite populate_other by done. rewrite !populate_path, lean_lookup, Hd. simpl.
  by rewrite lookup_delete_eq.
Qed.

Lemma subject_delete_leaves_references_witness :
  let s' := (subjects.route_delete root_deletes_math at_200 sample).2 in
  assignments s' !! 10%N = Some hw1
  ∧ assignments.expand s' hw1 !! "subject" = Some (Populated None).
Proof.
  destruct (subject_delete_leaves_references root_deletes_math at_200 sample 20%N hw1
              eq_refl eq_refl) as (Ha & _ & Hnull & _).
  - by eexists.
  - reflexivity.
  - split; [by rewrite Ha | exact Hnull].
Defined.

(** ** The overdue list and the full list *)

(** Whatever a requester gets in the overdue list is in the list the same
    requester gets from GET /api/assignments. *)
Theorem overdue_within_list req e s :
  ∃ l lo,
    assignments.route_get req e s
    = (ok (JList (length l) (assignments.expand s <$> l)), s)
    ∧ assignments.route_get_overdue req e s
      = (ok (JList (length lo) (assignments.expand s <$> lo)), s)
    ∧ lo ⊆ l.
Proof.
  unfold assignments.route_get, assignments.route_get_overdue.
  do 2 eexists. split; [by rewrite length_fmap|]. split; [by rewrite length_fmap|].
  intros d. destruct (decide (role (user req) = "student"));
    rewrite !elem_of_sort_find.
  - rewrite matches_own_overdue, matches_own. tauto.
  - intros [Hst _]. split; [done|]. apply matches_all.
Qed.

(** ** Writes to Subjects and Exams, ids that match nothing, ids that are none *)

(** Whoever is not an administrator is refused with 403 when creating or
    updating a Subject or an Exam, before the body or the id is looked
    at, and nothing changes. *)
Theorem subject_exam_writes_admin_only (Subject Exam : Model) req e s :
  role (user req) ≠ "admin" →
  let refused := (failed 403 (JRoleDenied (role (user req))), s) in
  subjects.route_post Subject req e s = refused
  ∧ subjects.route_put Subject req e s = refused
  ∧ exams.route_post Exam req e s = refused
  ∧ exams.route_put Exam req e s = refused.
Proof.
  intros Hr. cbn zeta.
  unfold subjects.route_post, subjects.route_put, exams.route_post, exams.route_put.
  rewrite !authorize_admin. by rewrite !decide_False.
Qed.

Lemma subject_exam_writes_admin_only_witness :
  subjects.route_post SubjectSchema bob_creates_subject at_200 sample
  = (failed 403 (JRoleDenied "student"), sample)
  ∧ exams.route_put ExamSchema bob_creates_subject at_200 sample
    = (failed 403 (JRoleDenied "student"), sample).
Proof.
  assert (Hr : role (user bob_creates_subject) ≠ "admin") by discriminate.
  destruct (subject_exam_writes_admin_only SubjectSchema ExamSchema bob_creates_subject
              at_200 sample Hr) as (Hpost & _ & _ & Hput).
  split; [exact Hpost | exact Hput].
Defined.

(** A read or an update of an id that matches no record answers 404 and
    changes nothing.  For an Assignment this comes before the look at the
    owner and at the body, so it holds for every role and every body; for
    a Subject or an Exam the read holds for every role, and the update
    for an administrator whose body passes the update validators. *)
Theorem missing_record_is_404 (Subject Exam Assignment : Model) req e s i :
  params_id req = WellFormed i →
  (assignments s !! i = None →
   assignments.route_get_id req e s = (failed 404 (JMessage "Assignment not found"), s)
   ∧ assignments.route_put Assignment req e s
     = (failed 404 (JMessage "Assignment not found"), s))
  ∧ (subjects s !! i = None →
     subjects.route_get_id req e s = (failed 404 (JMessage "Subject not found"), s)
     ∧ (role (user req) = "admin" → updateValidator Subject (body req) = true →
        subjects.route_put Subject req e s
        = (failed 404 (JMessage "Subject not found"), s)))
  ∧ (exams s !! i = None →
     exams.route_get_id req e s = (failed 404 (JMessage "Exam not found"), s)
     ∧ (role (user req) = "admin" → updateValidator Exam (body req) = true →
        exams.route_put Exam req e s = (failed 404 (JMessage "Exam not found"), s))).
Proof.
  intros Hp. split; [|split]; intros Hn.
  - unfold assignments.route_get_id, assignments.route_put. rewrite Hp. simpl.
    by rewrite Hn.
  - unfold subjects.route_get_id, subjects.route_put. rewrite Hp. simpl. rewrite Hn.
    split; [done|]. intros Hr Hv. rewrite authorize_admin, decide_True by done.
    unfold findByIdAndUpdate. rewrite Hp, Hv, Hn. done.
  - unfold exams.route_get_id, exams.route_put. rewrite Hp. simpl. rewrite Hn.
    split; [done|]. intros Hr Hv. rewrite authorize_admin, decide_True by done.
    unfold findByIdAndUpdate. rewrite Hp, Hv, Hn. done.
Qed.

Lemma missing_record_is_404_witness :
  assignments.route_put AssignmentSchema bob_asks_missing at_200 sample
  = (failed 404 (JMessage "Assignment not found"), sample)
  ∧ subjects.route_get_id bob_asks_missing at_200 sample
    = (failed 404 (JMessage "Subject not found"), sample)
  ∧ exams.route_put ExamSchema root_deletes_missing at_200 sample
    = (failed 404 (JMessage "Exam not found"), sample).
Proof.
  destruct (missing_record_is_404 SubjectSchema ExamSchema AssignmentSchema
              bob_asks_missing at_200 sample 77%N eq_refl) as (Ha & Hs & _).
  destruct (missing_record_is_404 SubjectSchema ExamSchema AssignmentSchema
              root_deletes_missing at_200 sample 77%N eq_refl) as (_ & _ & He).
  destruct (Ha eq_refl) as [_ Hput]. destruct (Hs eq_refl) as [Hget _].
  destruct (He eq_refl) as [_ Hupd].
  split; [exact Hput|]. split; [exact Hget|]. by apply Hupd.
Defined.

(** A route parameter that does not cast to an ObjectId makes the store
    call throw, and the handler answers 500 without changing anything:
    the reads for every role, the update of an Assignment for every role
    and body, the update of a Subject or an Exam for an administrator. *)
Theorem malformed_id_is_500 (Subject Exam Assignment : Model) req e s m :
  params_id req = Malformed m →
  let thrown := (failed 500 (JError CastError), s) in
  subjects.route_get_id req e s = thrown
  ∧ exams.route_get_id req e s = thrown
  ∧ assignments.route_get_id req e s = thrown
  ∧ assignments.route_put Assignment req e s = thrown
  ∧ (role (user req) = "admin" →
     subjects.route_put Subject req e s = thrown
     ∧ exams.route_put Exam req e s = thrown).
Proof.
  intros Hp. cbn zeta.
  unfold subjects.route_get_id, exams.route_get_id, assignments.route_get_id,
    assignments.route_put, subjects.route_put, exams.route_put.
  rewrite Hp. simpl. repeat split; try done;
    rewrite authorize_admin, decide_True by done; by rewrite Hp.
Qed.

Lemma malformed_id_is_500_witness :
  assignments.route_get_id bob_asks_garbage at_200 sample
  = (failed 500 (JError CastError), sample)
  ∧ assignments.route_put AssignmentSchema bob_asks_garbage at_200 sample
    = (failed 500 (JError CastError), sample).
Proof.
  destruct (malformed_id_is_500 SubjectSchema ExamSchema AssignmentSchema
              bob_asks_garbage at_200 sample "overdue2" eq_refl)
    as (_ & _ & Hget & Hput & _).
  split; [exact Hget | exact Hput].
Defined.

(** ** What a student can see *)

Lemma expand_createdBy_lookup s a :
  assignments.expand s a !! "createdBy"
  = match a !! "createdBy" with
    | Some (VOid o) => Some (Populated (select ["name"; "email"] o <$> users s !! o))
    | other => Plain <$> other
    end.
Proof.
  unfold assignments.expand.
  rewrite populate_path, populate_other, lean_lookup by done.
  by destruct (a !! "createdBy") as [[]|].
Qed.

(** Every Assignment a student receives from a read route is the
    student's own: the two lists hold only documents whose [createdBy] is
    the student, and a read by id answers 200 only for such a document. *)
Theorem student_reads_only_own req e s :
  role (user req) = "student" →
  (∃ l, assignments.route_get req e s
        = (ok (JList (length l) (assignments.expand s <$> l)), s)
      ∧ ∀ d, d ∈ l → owned_by (user req) d)
  ∧ (∃ l, assignments.route_get_overdue req e s
          = (ok (JList (length l) (assignments.expand s <$> l)), s)
        ∧ ∀ d, d ∈ l → owned_by (user req) d)
  ∧ (∀ i a, params_id req = WellFormed i → assignments s !! i = Some a →
       status (assignments.route_get_id req e s).1 = 200%nat →
       owned_by (user req) a).
Proof.
  intros Hr. split; [|split].
  - unfold assignments.route_get. rewrite decide_True by done.
    eexists. split; [by rewrite length_fmap|].
    intros d [_ Hm]%elem_of_sort_find. by apply matches_own.
  - unfold assignments.route_get_overdue. rewrite decide_True by done.
    eexists. split; [by rewrite length_fmap|].
    intros d [_ Hm]%elem_of_sort_find. by apply matches_own_overdue in Hm as [? _].
  - intros i a Hp Ha. unfold assignments.route_get_id, assignments.student_and,
      assignments.populated_owner_differs, owned_by.
    rewrite Hp. simpl. rewrite Ha, decide_True by done.
    rewrite expand_createdBy_lookup.
    destruct (a !! "createdBy") as [[| | | |o|]|]; simpl; try discriminate.
    destruct (users s !! o) as [u|]; simpl; [|discriminate].
    rewrite select_lookup. simpl.
    destruct (bool_decide (o ≠ _id (user req))) eqn:Hb; [discriminate|].
    apply bool_decide_eq_false in Hb. intros _. f_equal. f_equal.
    by destruct (decide (o = _id (user req))).
Qed.

Lemma student_reads_only_own_witness :
  (∃ l, assignments.route_get (lists bob) at_200 term
        = (ok (JList (length l) (assignments.expand term <$> l)), term)
      ∧ (hw1 ∉ l))
  ∧ owned_by bob hw3.
Proof.
  destruct (student_reads_only_own (lists bob) at_200 term eq_refl)
    as ((l & Hl & Hown) & _ & _).
  destruct (student_reads_only_own bob_reads_hw3 at_200 term eq_refl)
    as (_ & _ & Hget).
  split.
  - exists l. split; [exact Hl|]. intros Hin. apply Hown in Hin. discriminate.
  - apply (Hget 12%N hw3 eq_refl eq_refl). reflexivity.
Defined.

(** ** The envelope *)

(** Every response a handler gives to an authenticated request (one that
    [protect] has let through with its user) has one of the statuses 200,
    201, 403, 404 and 500, and its [success] flag is set exactly for 200
    and 201; 201 is answered by the create handlers only. *)
Theorem envelope_status (Subject Exam Assignment : Model) h req e s :
  h ∈ routes Subject Exam Assignment →
  let r := (h req e s).1 in
  (success r = true ∧ (status r = 200%nat ∨ status r = 201%nat)
   ∨ success r = false ∧ (status r = 403%nat ∨ status r = 404%nat ∨ status r = 500%nat))
  ∧ (status r = 201%nat →
     h ∈ [subjects.route_post Subject; exams.route_post Exam;
          assignments.route_post Assignment]).
Proof.
  intros Hh. cbn zeta. remember (h req e s).1 as r eqn:Hr.
  each_route Hh; (split; [response_cases; auto 6|]).
  all: first [ intros _;
               first [ apply list_elem_of_here
                     | apply list_elem_of_further, list_elem_of_here
                     | do 2 apply list_elem_of_further; apply list_elem_of_here ]
             | intros H201; exfalso; revert H201; response_cases; discriminate ].
Qed.

Lemma envelope_status_witness :
  success (assignments.route_post AssignmentSchema alice_creates at_200 sample).1 = true
  ∧ status (assignments.route_post AssignmentSchema alice_creates at_200 sample).1
    = 201%nat.
Proof.
  destruct (envelope_status SubjectSchema ExamSchema AssignmentSchema
              (assignments.route_post AssignmentSchema) alice_creates at_200 sample)
    as [[[Hs [H200 | H201]] | [Hf _]] _].
  - unfold routes, read_routes, write_routes. simpl. repeat constructor.
  - vm_compute in H200. discriminate.
  - split; [exact Hs | exact H201].
  - vm_compute in Hf. discriminate.
Defined.

(** ** Overdue, over time and after completion *)



(** Once an update that sets the status to [completed] has been accepted,
    the Assignment is on nobody's overdue list, at any time. *)
Theorem completed_leaves_overdue (Assignment : Model) req lister e e' s i a :
  params_id req = WellFormed i → assignments s !! i = Some a →
  role (user req) ≠ "student" ∨ a !! "createdBy" = Some (VOid (_id (user req))) →
  update_accepted Assignment i (body req) →
  body req !! "status" = Some (VStr "completed") →
  let s' := (assignments.route_put Assignment req e s).2 in
  ∃ d l, assignments s' !! i = Some d
       ∧ assignments.route_get_overdue lister e' s'
         = (ok (JList (length l) (assignments.expand s' <$> l)), s')
       ∧ d ∉ l.
Proof.
  intros Hp Ha Hown Hacc Hst s'.
  assert (Hs' : s' = set_assignments (<[i := body req ∪ a]> (assignments s)) s).
  { unfold s'.
    by rewrite (put_assignment_permitted_accepted Assignment req e s i a). }
  rewrite Hs'. exists (body req ∪ a). unfold assignments.route_get_overdue. eexists.
  split; [apply lookup_insert_eq|]. split; [by rewrite length_fmap|].
  assert (Hdone : ¬ is_overdue (now e') (body req ∪ a)).
  { intros [_ Hn]. apply Hn. by apply lookup_union_Some_l. }
  destruct (decide (role (user lister) = "student")); rewrite elem_of_sort_find.
  - rewrite matches_own_overdue. tauto.
  - rewrite matches_overdue. tauto.
Qed.

Lemma completed_leaves_overdue_witness :
  let s' := (assignments.route_put AssignmentSchema bob_completes_hw4 at_200 term).2 in
  ∃ d l, assignments s' !! 13%N = Some d
       ∧ assignments.route_get_overdue (lists root) at_200 s'
         = (ok (JList (length l) (assignments.expand s' <$> l)), s')
       ∧ d ∉ l.
Proof.
  apply (completed_leaves_overdue AssignmentSchema bob_completes_hw4 (lists root)
           at_200 at_200 term 13%N hw4 eq_refl eq_refl).
  - by right.
  - split; [reflexivity|by left].
  - reflexivity.
Defined.
